(** * AutoMoLi: automatic motion lights

    A shallow embedding of [apps/automoli/automoli.py] (class [AutoMoLi]) and
    the properties of its timer discipline, blockers, disable rules and fade
    executor.

    Conventions of the embedding:
    - a Python value read from the automation host is a [pyval];
    - a Python float is a [pyfloat]: an exact rational ([Q]), an infinity
      or not-a-number.  The rounding of binary floating point is not
      modelled: sensor readings and thresholds are decimal literals,
      compared as the numbers they denote.  Of the finite range of a
      double, the overflow of a literal and of a quotient to an infinity
      is modelled; the statements on the outcome of [fade] say which
      durations and brightnesses they cover;
    - a method of the app is a computation in the monad [M]: it threads the
      [World] (the app's mutable fields, the host's scheduler and the
      commands and log lines emitted so far) and may raise a Python
      exception, in which case the mutations done so far are kept;
    - everything the host answers during one callback ([get_state],
      [friendly_name]) is an [Env], fixed for the duration of the callback. *)

From Stdlib Require Import List String Ascii Bool ZArith QArith Qround Lia.
From Stdlib Require Import DecimalString.
Import ListNotations.

Local Open Scope string_scope.
Local Open Scope list_scope.
Local Open Scope Z_scope.

(** ** Python values and builtins *)

Inductive exn : Type :=
| ValueError
| TypeError
| KeyError
| ZeroDivisionError
| OverflowError.

Inductive Res (A : Type) : Type :=
| Ok (a : A)
| Err (e : exn).

Arguments Ok {A} a.
Arguments Err {A} e.

Inductive pyval : Type :=
| PNone
| PBool (b : bool)
| PInt (z : Z)
| PFloat (q : Q)
| PStr (s : string).

(** The value of a Python float. *)
Inductive pyfloat : Type :=
| Finite (q : Q)
| PosInf
| NegInf
| NaN.

Module Py.

(** [str.isspace] on the ASCII range: TAB, LF, VT, FF, CR, FS, GS, RS, US
    and the space. *)
Definition is_space (c : ascii) : bool :=
  let n := Z.of_nat (nat_of_ascii c) in
  ((9 <=? n) && (n <=? 13)) || ((28 <=? n) && (n <=? 32)).

Fixpoint lstrip (s : string) : string :=
  match s with
  | String c r => if is_space c then lstrip r else s
  | EmptyString => EmptyString
  end.

Fixpoint rstrip (s : string) : string :=
  match s with
  | String c r =>
      let r' := rstrip r in
      if is_space c && (r' =? EmptyString)%string then EmptyString else String c r'
  | EmptyString => EmptyString
  end.

(** [str.strip()] *)
Definition strip (s : string) : string := rstrip (lstrip s).

(** The white space [float] and [int] skip around a literal: TAB, LF, VT,
    FF, CR and the space, not the four separators [str.strip] also
    removes. *)
Definition is_blank (c : ascii) : bool :=
  let n := Z.of_nat (nat_of_ascii c) in
  ((9 <=? n) && (n <=? 13)) || (n =? 32).

Fixpoint skip_left (s : string) : string :=
  match s with
  | String c r => if is_blank c then skip_left r else s
  | EmptyString => EmptyString
  end.

Fixpoint skip_right (s : string) : string :=
  match s with
  | String c r =>
      let r' := skip_right r in
      if is_blank c && (r' =? EmptyString)%string then EmptyString else String c r'
  | EmptyString => EmptyString
  end.

Definition trim (s : string) : string := skip_right (skip_left s).

(** [s.split(sep)] for a one-character separator: always at least one
    field, empty fields are kept. *)
Fixpoint split (sep : ascii) (s : string) : list string :=
  match s with
  | EmptyString => [EmptyString]
  | String c r =>
      if Ascii.eqb c sep then EmptyString :: split sep r
      else match split sep r with
           | w :: ws => String c w :: ws
           | [] => [String c EmptyString]
           end
  end.

(** [s.startswith(p)] *)
Definition startswith (p s : string) : bool := String.prefix p s.

Definition digit_of (c : ascii) : option Z :=
  let n := Z.of_nat (nat_of_ascii c) in
  if (48 <=? n) && (n <=? 57) then Some (n - 48) else None.

Definition starts_with_digit (s : string) : bool :=
  match s with
  | String c _ => match digit_of c with Some _ => true | None => false end
  | EmptyString => false
  end.

(** The digit part at the head of [s]: decimal digits, with single
    underscores allowed between two digits.  Its value (on top of [acc]),
    the number of digits read (on top of [cnt]) and the rest. *)
Fixpoint read_digits (s : string) (acc cnt : Z) : Z * Z * string :=
  match s with
  | String c r =>
      match digit_of c with
      | Some d => read_digits r (10 * acc + d) (cnt + 1)
      | None =>
          if Ascii.eqb c "_"%char && (0 <? cnt) && starts_with_digit r
          then read_digits r acc cnt
          else (acc, cnt, s)
      end
  | EmptyString => (acc, cnt, EmptyString)
  end.

(** [str.lower()] on the ASCII range. *)
Fixpoint lower (s : string) : string :=
  match s with
  | String c r =>
      let n := nat_of_ascii c in
      String (if (65 <=? n)%nat && (n <=? 90)%nat then ascii_of_nat (n + 32) else c)
             (lower r)
  | EmptyString => EmptyString
  end.

Definition read_sign (s : string) : bool * string :=
  match s with
  | String "-"%char r => (true, r)
  | String "+"%char r => (false, r)
  | _ => (false, s)
  end.

Definition read_exponent (s : string) : option Z :=
  match s with
  | EmptyString => Some 0
  | String c r =>
      if Ascii.eqb c "e"%char || Ascii.eqb c "E"%char then
        let (neg, r1) := read_sign r in
        let '(ev, ne, r2) := read_digits r1 0 0 in
        if (ne =? 0) || negb (r2 =? EmptyString)%string then None
        else Some (if neg then - ev else ev)
      else None
  end.

(** Where the conversion of a decimal literal leaves the finite doubles:
    half way between the largest double and [2 ^ 1024]. *)
Definition float_overflow : Q := inject_Z (2 ^ 1024 - 2 ^ 970).

(** A number as a float: beyond the finite doubles it is an infinity. *)
Definition fit (q : Q) : pyfloat :=
  if Qle_bool float_overflow q then PosInf
  else if Qle_bool q (- float_overflow) then NegInf
  else Finite q.

(** The literals [float(str)] accepts: surrounding white space, a sign,
    then either [nan], [inf] or [infinity] in any case, or digits with an
    optional fraction and an optional exponent.  A literal beyond the
    finite doubles is an infinity. *)
Definition parse_float (s : string) : option pyfloat :=
  let (neg, s1) := read_sign (trim s) in
  let word := lower s1 in
  if (word =? "nan")%string then Some NaN
  else if (word =? "inf")%string || (word =? "infinity")%string
  then Some (if neg then NegInf else PosInf)
  else
    let '(ip, ni, s2) := read_digits s1 0 0 in
    let '(fp, nf, s3) :=
      match s2 with
      | String "."%char r => read_digits r 0 0
      | _ => (0, 0, s2)
      end in
    if ni + nf =? 0 then None
    else
      match read_exponent s3 with
      | None => None
      | Some e =>
          let mant := ip * 10 ^ nf + fp in
          let k := e - nf in
          let q := if 0 <=? k then inject_Z (mant * 10 ^ k)
                   else Qmake mant (Z.to_pos (10 ^ (- k))) in
          Some (fit (if neg then Qopp q else q))
      end.

(** The literals [int(str)] accepts in base 10. *)
Definition parse_int (s : string) : option Z :=
  let (neg, s1) := read_sign (trim s) in
  let '(v, n, s2) := read_digits s1 0 0 in
  if (n =? 0) || negb (s2 =? EmptyString)%string then None
  else Some (if neg then - v else v).

(** [float(v)].  An integer is converted exactly, whatever its size. *)
Definition float (v : pyval) : Res pyfloat :=
  match v with
  | PNone => Err TypeError
  | PBool b => Ok (Finite (if b then 1%Q else 0%Q))
  | PInt z => Ok (Finite (inject_Z z))
  | PFloat q => Ok (Finite q)
  | PStr s => match parse_float s with
              | Some x => Ok x
              | None => Err ValueError
              end
  end.

(** [x >= th] for a float [x] and a number [th]: false for not-a-number. *)
Definition ge (x : pyfloat) (th : Q) : bool :=
  match x with
  | Finite q => Qle_bool th q
  | PosInf => true
  | NegInf | NaN => false
  end.

(** [- x] *)
Definition neg (x : pyfloat) : pyfloat :=
  match x with
  | Finite q => Finite (- q)
  | PosInf => NegInf
  | NegInf => PosInf
  | NaN => NaN
  end.

(** [a - x] for a number [a]. *)
Definition sub_from (a : Q) (x : pyfloat) : pyfloat :=
  match x with
  | Finite q => Finite (a - q)
  | PosInf => NegInf
  | NegInf => PosInf
  | NaN => NaN
  end.

(** [a * x] for a number [a]. *)
Definition times (a : Q) (x : pyfloat) : pyfloat :=
  match x with
  | Finite q => Finite (a * q)
  | NaN => NaN
  | _ => if Qeq_bool a 0 then NaN
         else if Qle_bool 0 a then x else neg x
  end.

(** [x / p] for a number [p] other than 0: a quotient beyond the finite
    doubles is an infinity. *)
Definition over (x : pyfloat) (p : Q) : pyfloat :=
  match x with
  | Finite q => fit (q / p)
  | NaN => NaN
  | _ => if Qle_bool 0 p then x else neg x
  end.

(** Truncation toward zero, [int(x)] on a float. *)
Definition trunc (q : Q) : Z := Z.quot (Qnum q) (Zpos (Qden q)).

(** [int(v)] *)
Definition int (v : pyval) : Res Z :=
  match v with
  | PNone => Err TypeError
  | PBool b => Ok (if b then 1 else 0)
  | PInt z => Ok z
  | PFloat q => Ok (trunc q)
  | PStr s => match parse_int s with
              | Some z => Ok z
              | None => Err ValueError
              end
  end.

(** [math.ceil(x)] on a number. *)
Definition ceil (q : Q) : Z := Qceiling q.

(** [math.ceil(x)]: not-a-number is a [ValueError], an infinity an
    [OverflowError]. *)
Definition math_ceil (x : pyfloat) : Res Z :=
  match x with
  | Finite q => Ok (ceil q)
  | NaN => Err ValueError
  | _ => Err OverflowError
  end.

Definition num_of (v : pyval) : option Q :=
  match v with
  | PBool b => Some (if b then 1%Q else 0%Q)
  | PInt z => Some (inject_Z z)
  | PFloat q => Some q
  | _ => None
  end.

(** [a == b] *)
Definition eq (a b : pyval) : bool :=
  match a, b with
  | PNone, PNone => true
  | PStr s, PStr t => (s =? t)%string
  | _, _ => match num_of a, num_of b with
            | Some x, Some y => Qeq_bool x y
            | _, _ => false
            end
  end.

(** Truth value of [v] in a condition. *)
Definition truthy (v : pyval) : bool :=
  match v with
  | PNone => false
  | PBool b => b
  | PInt z => negb (z =? 0)
  | PFloat q => negb (Qeq_bool q 0)
  | PStr s => negb (s =? EmptyString)%string
  end.

(** Number of elements of [range(start, stop, step)], [step <> 0]. *)
Definition range_len (start stop step : Z) : Z :=
  if 0 <? step then Z.max 0 ((stop - start + step - 1) / step)
  else Z.max 0 ((start - stop - step - 1) / (- step)).

(** [range(start, stop, step)], [step <> 0]. *)
Definition range (start stop step : Z) : list Z :=
  map (fun i => start + Z.of_nat i * step)
      (seq 0 (Z.to_nat (range_len start stop step))).

End Py.

(** ** The automation host as seen from one callback *)

(** [get_state e None] is the state of entity [e], [get_state e (Some a)]
    its attribute [a]; unknown entities and absent attributes are [PNone]. *)
Record Env : Type := mkEnv {
  get_state : string -> option string -> pyval;
  friendly_name : string -> string
}.

(** What the app sends out: service calls with their keyword arguments,
    tasks handed to the host's event loop ([create_task(self.fade(...))])
    and, inside a fade, the pause between two steps. *)
Inductive Cmd : Type :=
| CallService (service : string) (kwargs : list (string * pyval))
| CreateFade (entity direction : string) (targetBrightnessPct : Z) (duration : Q)
| Sleep (seconds : Q).

Inductive LogMsg : Type :=
| LogReceived (event entity_id : string)
| LogDisabled (lineStr : string)
| LogAlreadyOn
| LogParseError (sensor : string)
| LogBrightEnough (blocker : list string)
| LogSceneOn (scene : string)
| LogBrightnessOn (pct : Z)
| LogHumid (blocker : string) (reading : pyfloat)
| LogOff
| LogDaytime (name : string).

(** One entry of [daytimes], as [build_daytimes] lays it out. *)
Record Daytime : Type := mkDaytime {
  daytime : string;
  delay : Z;
  starttime : string;
  light_setting : pyval;
  is_hue_group : bool
}.

(** The fields [initialize] fills in from the app's arguments and that no
    callback writes afterwards. *)
Record Config : Type := mkConfig {
  room : string;
  sensors_motion : list string;
  sensors_humidity : list string;
  sensors_illuminance : list string;
  states_motion_on : pyval;
  states_motion_off : pyval;
  thresholds_humidity : option Q;
  thresholds_illuminance : option Q;
  disable_switch_entity : list string;
  fadeSetting_on : Q;
  fadeSetting_off : Q;
  lights : list string
}.

(** The mutable part: [self.active] ([None] for the empty dict),
    [self._handle], the host's pending [run_in] timers as (handle, delay),
    the next handle the host will hand out, and what was emitted so far.
    [peak] is a ghost counter: the largest number of timers that were ever
    pending together. *)
Record World : Type := mkWorld {
  active : option Daytime;
  _handle : option nat;
  timers : list (nat * Z);
  next_handle : nat;
  peak : nat;
  cmds : list Cmd;
  logs : list LogMsg
}.

(** ** Errors and state *)

Definition res_bind {A B} (r : Res A) (k : A -> Res B) : Res B :=
  match r with
  | Ok a => k a
  | Err e => Err e
  end.

Notation "'let?' x := r 'in' k" := (res_bind r (fun x => k))
  (at level 10, x name, r at level 100, k at level 200).

Definition M (A : Type) : Type := World -> Res A * World.

Definition ret {A} (a : A) : M A := fun w => (Ok a, w).

Definition bind {A B} (m : M A) (k : A -> M B) : M B :=
  fun w => match m w with
           | (Ok a, w') => k a w'
           | (Err e, w') => (Err e, w')
           end.

Definition raise {A} (e : exn) : M A := fun w => (Err e, w).

Definition lift {A} (r : Res A) : M A := fun w => (r, w).

Definition gets {A} (f : World -> A) : M A := fun w => (Ok (f w), w).

Definition modify (f : World -> World) : M unit := fun w => (Ok tt, f w).

Notation "x <- m ;; k" := (bind m (fun x => k))
  (at level 61, m at next level, right associativity).
Notation "m ;; k" := (bind m (fun _ => k))
  (at level 61, right associativity).

(** [for x in xs: body x] *)
Fixpoint for_each {A} (xs : list A) (body : A -> M unit) : M unit :=
  match xs with
  | [] => ret tt
  | x :: rest => body x ;; for_each rest body
  end.

Definition set_active (a : option Daytime) (w : World) : World :=
  mkWorld a (_handle w) (timers w) (next_handle w) (peak w) (cmds w) (logs w).

Definition set_handle (h : option nat) (w : World) : World :=
  mkWorld (active w) h (timers w) (next_handle w) (peak w) (cmds w) (logs w).

Definition set_timers (ts : list (nat * Z)) (w : World) : World :=
  mkWorld (active w) (_handle w) ts (next_handle w) (peak w) (cmds w) (logs w).

Definition emit (c : Cmd) (w : World) : World :=
  mkWorld (active w) (_handle w) (timers w) (next_handle w) (peak w)
          (cmds w ++ [c]) (logs w).

Definition note (l : LogMsg) (w : World) : World :=
  mkWorld (active w) (_handle w) (timers w) (next_handle w) (peak w)
          (cmds w) (logs w ++ [l]).

(** *** Host primitives *)

Definition is_handle (h : option nat) (t : nat * Z) : bool :=
  match h with
  | Some n => Nat.eqb (fst t) n
  | None => false
  end.

(** [self.cancel_timer(handle)]: the timer with that handle is dropped; a
    handle that is [None], was cancelled or has fired is ignored. *)
Definition cancel_timer (h : option nat) : M unit :=
  modify (fun w => set_timers (filter (fun t => negb (is_handle h t)) (timers w)) w).

(** The host takes a timer that fires out of the pending ones. *)
Definition expire (h : nat) : M unit := cancel_timer (Some h).

(** [self.run_in(self.lights_off, delay)]: a fresh handle, pending from now. *)
Definition run_in (d : Z) : M nat :=
  fun w =>
    let h := next_handle w in
    let ts := timers w ++ [(h, d)] in
    (Ok h, mkWorld (active w) (_handle w) ts (S h)
                   (Nat.max (peak w) (List.length ts)) (cmds w) (logs w)).

Definition call_service (service : string) (kwargs : list (string * pyval)) : M unit :=
  modify (emit (CallService service kwargs)).

Definition create_task (c : Cmd) : M unit := modify (emit c).

Definition log (l : LogMsg) : M unit := modify (note l).

(** [self.active[...]]: a [KeyError] while no daytime is active. *)
Definition the_active : M Daytime :=
  fun w => match active w with
           | Some a => (Ok a, w)
           | None => (Err KeyError, w)
           end.

(** ** The fade executor *)

Definition turn_on_brightness (entity : string) (b : Z) : Cmd :=
  CallService "homeassistant/turn_on"
              [("entity_id", PStr entity); ("brightness", PInt b)].

(** [fade(entity, direction, targetBrightnessPct, duration)]: the service
    calls and pauses of the coroutine, in order.  Every error it can raise
    comes before its first call.  [int(targetBrightness)] is the same in
    exact and in double arithmetic: [targetBrightnessPct * 255] is an
    integer and its quotient by 100 is an integer or at least a hundredth
    away from one.  The step is the exact quotient rounded up: where the
    double computation rounds its quotient across an integer, or
    [adjPoints] itself leaves the doubles (a duration over about 3e307
    seconds), the ramp of the program has another step.  A quotient
    beyond the finite doubles (a duration under about 1e-305 seconds) is
    an infinity, which [math.ceil] refuses with [OverflowError]. *)
Definition fade (env : Env) (entity direction : string)
           (targetBrightnessPct : Z) (duration : Q) : Res (list Cmd) :=
  let targetBrightness := (inject_Z targetBrightnessPct * 255 / 100)%Q in
  let adjFrequency := (2 # 10)%Q in
  let adjPoints := (duration / adjFrequency)%Q in
  let initBrightness := get_state env entity (Some "brightness") in
  let initBrightness :=
    match initBrightness with PNone => PInt 0 | v => v end in
  let? delta :=
    (if (direction =? "up")%string
     then let? i := Py.float initBrightness in Ok (Py.sub_from targetBrightness i)
     else let? i := Py.float initBrightness in Ok (Py.times (- (1)) i)) in
  if Qeq_bool adjPoints 0 then Err ZeroDivisionError
  else
    let? step := Py.math_ceil (Py.over delta adjPoints) in
    let? ramp :=
      (if step =? 0 then Ok []
       else
         let? start := Py.int initBrightness in
         Ok (flat_map (fun b => [turn_on_brightness entity b; Sleep adjFrequency])
                      (Py.range start (Py.trunc targetBrightness) step))) in
    Ok (ramp ++ [turn_on_brightness entity (Py.trunc targetBrightness)]).

(** The spec's [round]: the nearest integer. *)
Definition round_nearest (q : Q) : Z := Qfloor (q + (1 # 2))%Q.

(** ** Disable rules *)

(** [a, b = map(str.strip, field.split(','))]: exactly two parts, or the
    unpacking raises [ValueError]. *)
Definition unpack_pair (field : string) : Res (string * string) :=
  match map Py.strip (Py.split "," field) with
  | [a; b] => Ok (a, b)
  | _ => Err ValueError
  end.

Definition att_satisfied (currAtt : pyval) (attStat : string) : bool :=
  Py.eq currAtt (PStr attStat)
  || (match currAtt with PNone => true | _ => false end
      && ("None" =? attStat)%string).

(** The [for attConf in conf[1:]] loop of [eval_disable_switch_conf],
    entered with [attCond = False]; the result is [attCond] at its end. *)
Fixpoint att_loop (env : Env) (entity : string) (attConfs : list string)
  : Res bool :=
  match attConfs with
  | [] => Ok false
  | attConf :: rest =>
      let? p := unpack_pair attConf in
      let currAtt := get_state env entity (Some (fst p)) in
      if att_satisfied currAtt (snd p) then Ok true
      else att_loop env entity rest
  end.

Definition eval_disable_switch_conf (env : Env) (confLine : string) : Res bool :=
  let conf := Py.split ";" confLine in
  let? p := unpack_pair (hd EmptyString conf) in
  let entity := fst p in
  let disableStat := snd p in
  if Py.eq (get_state env entity None) (PStr disableStat) then
    match tl conf with
    | [] => Ok true
    | attConfs => att_loop env entity attConfs
    end
  else Ok false.

(** The loop both [motion_event] and [lights_off] start with:
    [for lineStr in self.disable_switch_entity: if
    self.eval_disable_switch_conf(lineStr): log; return].  The result says
    whether the caller returns. *)
Fixpoint check_disabled (env : Env) (lines : list string) : M bool :=
  match lines with
  | [] => ret false
  | lineStr :: rest =>
      b <- lift (eval_disable_switch_conf env lineStr) ;;
      if b then log (LogDisabled lineStr) ;; ret true
      else check_disabled env rest
  end.

(** ** Timer and lights *)

Definition refresh_timer : M unit :=
  h <- gets _handle ;;
  cancel_timer h ;;
  a <- the_active ;;
  if negb (delay a =? 0) then
    h' <- run_in (delay a) ;;
    modify (set_handle (Some h'))
  else ret tt.

(** [if self.thresholds[...]:] *)
Definition threshold_set (t : option Q) : bool :=
  match t with
  | Some q => negb (Qeq_bool q 0)
  | None => false
  end.

Definition the_threshold (t : option Q) : Q :=
  match t with
  | Some q => q
  | None => 0%Q
  end.

(** [[sensor for sensor in sensors if float(self.get_state(sensor)) >= th]] *)
Fixpoint sensors_over (env : Env) (th : Q) (sensors : list string)
  : Res (list string) :=
  match sensors with
  | [] => Ok []
  | sensor :: rest =>
      let? r := Py.float (get_state env sensor None) in
      let? more := sensors_over env th rest in
      Ok (if Py.ge r th then sensor :: more else more)
  end.

(** [blocker.pop() if blocker else None] *)
Definition pop_or_none (blocker : list string) : option string :=
  List.last (map Some blocker) None.

(** The value of [blocker] in [lights_off] when the turn-off decision is
    taken (lines 440 to 448). *)
Definition humidity_blocker (cfg : Config) (env : Env) : Res (option string) :=
  if threshold_set (thresholds_humidity cfg) then
    let? blocker := sensors_over env (the_threshold (thresholds_humidity cfg))
                                 (sensors_humidity cfg) in
    Ok (pop_or_none blocker)
  else Ok None.

(** [if blocker:] on a sensor name or [None]. *)
Definition blocker_truthy (blocker : option string) : bool :=
  match blocker with
  | Some s => negb (s =? EmptyString)%string
  | None => false
  end.

Definition any_light_on (cfg : Config) (env : Env) : bool :=
  existsb (fun light => Py.eq (get_state env light None) (PStr "on")) (lights cfg).

Definition lights_off (cfg : Config) (env : Env) : M unit :=
  disabled <- check_disabled env (disable_switch_entity cfg) ;;
  if disabled then ret tt
  else
    blocker <- lift (humidity_blocker cfg env) ;;
    if blocker_truthy blocker then
      refresh_timer ;;
      a <- the_active ;;
      r <- lift (Py.float (get_state env
                  (match blocker with Some s => s | None => EmptyString end) None)) ;;
      log (LogHumid (match blocker with Some s => s | None => EmptyString end) r)
    else
      h <- gets _handle ;;
      cancel_timer h ;;
      if any_light_on cfg env then
        for_each (lights cfg) (fun entity =>
          create_task (CreateFade entity "down" 0 (fadeSetting_off cfg))) ;;
        a <- the_active ;;
        log LogOff
      else ret tt.

(** The illuminance loop of [lights_on].  [None]: the method returned from
    inside the loop (a reading raised [ValueError]); [Some blocker]: the
    loop ran to its end.  Any other exception leaves the method. *)
Fixpoint illuminance_loop (env : Env) (th : Q) (sensors blocker : list string)
  : M (option (list string)) :=
  match sensors with
  | [] => ret (Some blocker)
  | sensor :: rest =>
      match Py.float (get_state env sensor None) with
      | Ok r =>
          illuminance_loop env th rest
            (if Py.ge r th then blocker ++ [sensor] else blocker)
      | Err ValueError => log (LogParseError sensor) ;; ret None
      | Err e => raise e
      end
  end.

(** [isinstance(v, int)], with the integer it stands for. *)
Definition as_int (v : pyval) : option Z :=
  match v with
  | PInt z => Some z
  | PBool b => Some (if b then 1 else 0)
  | _ => None
  end.

Definition turn_on_entity (item : string) : M unit :=
  call_service "homeassistant/turn_on" [("entity_id", PStr item)].

Definition lights_on (cfg : Config) (env : Env) : M unit :=
  blocked <-
    (if threshold_set (thresholds_illuminance cfg) then
       r <- illuminance_loop env (the_threshold (thresholds_illuminance cfg))
                             (sensors_illuminance cfg) [] ;;
       match r with
       | None => ret true
       | Some [] => ret false
       | Some blocker => log (LogBrightEnough blocker) ;; ret true
       end
     else ret false) ;;
  if blocked then ret tt
  else
    a <- the_active ;;
    match light_setting a with
    | PStr scene =>
        for_each (lights cfg) (fun entity =>
          if is_hue_group a
             && Py.truthy (get_state env entity (Some "is_hue_group"))
          then
            call_service "hue/hue_activate_scene"
                         [("group_name", PStr (friendly_name env entity));
                          ("scene_name", PStr scene)]
          else
            turn_on_entity (if Py.startswith "scene." scene then scene else entity)) ;;
        log (LogSceneOn scene)
    | v =>
        match as_int v with
        | Some pct =>
            if pct =? 0 then lights_off cfg env
            else
              for_each (lights cfg) (fun entity =>
                if Py.startswith "switch." entity then turn_on_entity entity
                else
                  create_task (CreateFade entity "up" pct (fadeSetting_on cfg)) ;;
                  log (LogBrightnessOn pct))
        | None => raise ValueError
        end
    end.

(** ** Callbacks *)

Definition EVENT_MOTION_XIAOMI : string := "xiaomi_aqara.motion".

Definition motion_event (cfg : Config) (env : Env) (event entity_id : string)
  : M unit :=
  log (LogReceived event entity_id) ;;
  disabled <- check_disabled env (disable_switch_entity cfg) ;;
  if disabled then ret tt
  else
    (if negb (any_light_on cfg env) then lights_on cfg env
     else log LogAlreadyOn) ;;
    if negb (event =? "state_changed_detection")%string then refresh_timer
    else ret tt.

Definition motion_detected (cfg : Config) (env : Env) (entity : string) : M unit :=
  h <- gets _handle ;;
  (match h with
   | Some _ => cancel_timer h
   | None => ret tt
   end) ;;
  motion_event cfg env "state_changed_detection" entity.

Definition motion_cleared (cfg : Config) (env : Env) : M unit :=
  if forallb (fun sensor =>
                Py.eq (get_state env sensor None) (states_motion_off cfg))
             (sensors_motion cfg)
  then refresh_timer
  else
    h <- gets _handle ;;
    match h with
    | Some _ => cancel_timer h
    | None => ret tt
    end.

(** [switch_daytime(dict(daytime=d, initial=initial))] *)
Definition switch_daytime (d : Daytime) (initial : bool) : M unit :=
  modify (set_active (Some d)) ;;
  if negb initial then log (LogDaytime (daytime d)) else ret tt.

(** The listener loop that ends [initialize]: with neither
    [motion_state_on] nor [motion_state_off] given, each motion sensor is
    listened to by event and the timer is refreshed once per sensor. *)
Definition initialize_listeners (cfg : Config) : M unit :=
  for_each (sensors_motion cfg) (fun sensor =>
    if negb (Py.truthy (states_motion_on cfg) || Py.truthy (states_motion_off cfg))
    then refresh_timer
    else ret tt).

(** ** The host's event loop *)

Inductive Event : Type :=
| MotionPulse (entity : string)
| Detected (entity : string)
| Cleared
| TimerFired (h : nat)
| DaytimeSwitch (d : Daytime).

Definition pending (h : nat) (w : World) : bool :=
  existsb (is_handle (Some h)) (timers w).

(** One callback, run to completion.  A timer that fires leaves the
    pending set before its callback [lights_off] runs; a handle that is
    not pending does not fire. *)
Definition dispatch (cfg : Config) (env : Env) (ev : Event) : M unit :=
  match ev with
  | MotionPulse entity => motion_event cfg env EVENT_MOTION_XIAOMI entity
  | Detected entity => motion_detected cfg env entity
  | Cleared => motion_cleared cfg env
  | TimerFired h =>
      p <- gets (pending h) ;;
      if p then
        expire h ;;
        lights_off cfg env
      else ret tt
  | DaytimeSwitch d => switch_daytime d false
  end.

(** An exception ends the callback it was raised in; the app goes on with
    the next event. *)
Definition step (cfg : Config) (w : World) (ev : Env * Event) : World :=
  snd (dispatch cfg (fst ev) (snd ev) w).

Definition run (cfg : Config) (evs : list (Env * Event)) (w : World) : World :=
  fold_left (step cfg) evs w.

(** The fields as [initialize] leaves them before its listener loop,
    [first] being the daytime that [build_daytimes] found active, if any. *)
Definition blank (first : option Daytime) : World :=
  mkWorld first None [] 0%nat 0%nat [] [].

(** The app once [initialize] is through. *)
Definition boot (cfg : Config) (first : option Daytime) : World :=
  snd (initialize_listeners cfg (blank first)).

(** ** Disable rules as the specification words them *)

Record DisableRule : Type := mkRule {
  entityId : string;
  expectedState : string;
  attributeConditions : list (string * string)
}.

(** A condition matches when the attribute equals the expected value, or
    when the attribute is absent and the expected value is the word None. *)
Definition condition_matches (env : Env) (entity : string)
           (c : string * string) : bool :=
  match get_state env entity (Some (fst c)) with
  | PNone => (snd c =? "None")%string
  | v => Py.eq v (PStr (snd c))
  end.

(** The veto fires when the state matches and (there is no attribute
    condition or at least one of them matches). *)
Definition rule_fires (env : Env) (r : DisableRule) : bool :=
  Py.eq (get_state env (entityId r) None) (PStr (expectedState r))
  && (match attributeConditions r with
      | [] => true
      | cs => existsb (condition_matches env (entityId r)) cs
      end).

(** The configuration syntax [entity, expectedState[; attribute,
    expectedValue]*], white space around each part ignored. *)
Definition parse_pair (field : string) : option (string * string) :=
  match Py.split "," field with
  | [a; b] => Some (Py.strip a, Py.strip b)
  | _ => None
  end.

Fixpoint parse_conditions (fields : list string) : option (list (string * string)) :=
  match fields with
  | [] => Some []
  | f :: rest =>
      match parse_pair f, parse_conditions rest with
      | Some c, Some cs => Some (c :: cs)
      | _, _ => None
      end
  end.

Definition parse_rule (line : string) : option DisableRule :=
  match Py.split ";" line with
  | [] => None
  | first :: fields =>
      match parse_pair first, parse_conditions fields with
      | Some p, Some cs => Some (mkRule (fst p) (snd p) cs)
      | _, _ => None
      end
  end.

Definition line_fires (env : Env) (line : string) : bool :=
  match parse_rule line with
  | Some r => rule_fires env r
  | None => false
  end.

Definition well_formed (line : string) : Prop := parse_rule line <> None.

(** ** Vocabulary of the statements *)

(** What a sensor reads, as the blockers convert it. *)
Definition reading (env : Env) (sensor : string) : Res pyfloat :=
  Py.float (get_state env sensor None).

Definition reaches (env : Env) (th : Q) (sensor : string) : bool :=
  match reading env sensor with
  | Ok r => Py.ge r th
  | Err _ => false
  end.

Definition unparsable (env : Env) (sensor : string) : bool :=
  match reading env sensor with
  | Ok _ => false
  | Err _ => true
  end.

Definition not_disabled (cfg : Config) (env : Env) : Prop :=
  Forall (fun l => eval_disable_switch_conf env l = Ok false)
         (disable_switch_entity cfg).

(** The world with [C] and [L] added to what was emitted. *)
Definition extend (C : list Cmd) (L : list LogMsg) (w : World) : World :=
  mkWorld (active w) (_handle w) (timers w) (next_handle w) (peak w)
          (cmds w ++ C) (logs w ++ L).

(** The timers left after [cancel_timer h]. *)
Definition without (h : option nat) (ts : list (nat * Z)) : list (nat * Z) :=
  filter (fun t => negb (is_handle h t)) ts.

Definition with_thresholds_illuminance (t : option Q) (cfg : Config) : Config :=
  mkConfig (room cfg) (sensors_motion cfg) (sensors_humidity cfg)
           (sensors_illuminance cfg) (states_motion_on cfg) (states_motion_off cfg)
           (thresholds_humidity cfg) t (disable_switch_entity cfg)
           (fadeSetting_on cfg) (fadeSetting_off cfg) (lights cfg).

Definition with_thresholds_humidity (t : option Q) (cfg : Config) : Config :=
  mkConfig (room cfg) (sensors_motion cfg) (sensors_humidity cfg)
           (sensors_illuminance cfg) (states_motion_on cfg) (states_motion_off cfg)
           t (thresholds_illuminance cfg) (disable_switch_entity cfg)
           (fadeSetting_on cfg) (fadeSetting_off cfg) (lights cfg).

(** The brightness attribute is either absent or an integer. *)
Definition brightness_int_or_unknown (env : Env) (entity : string) : Prop :=
  get_state env entity (Some "brightness") = PNone
  \/ exists b, get_state env entity (Some "brightness") = PInt b.

(** The largest magnitude the statements on the outcome of [fade] let the
    initial brightness and the duration take, and the inverse of the
    shortest duration they cover.  Within it every number of the double
    computation is finite: the step is at most about 2e299 in size. *)
Definition fade_range : Q := inject_Z (10 ^ 150).

(** The duration is between 1e-150 and 1e150 seconds. *)
Definition duration_in_range (duration : Q) : Prop :=
  (/ fade_range <= duration <= fade_range)%Q.

(** [initBrightness] in [fade], once 0 has taken the place of [None]. *)
Definition start_value (env : Env) (entity : string) : pyval :=
  let initBrightness := get_state env entity (Some "brightness") in
  match initBrightness with PNone => PInt 0 | v => v end.

(** The brightness attribute is absent, or a value that [float] and [int]
    both convert (a number, or a string that spells an integer), of
    magnitude at most [fade_range]. *)
Definition brightness_in_range (env : Env) (entity : string) : Prop :=
  exists x y,
    Py.float (start_value env entity) = Ok (Finite x)
    /\ Py.int (start_value env entity) = Ok y
    /\ (- fade_range <= x <= fade_range)%Q.

(** [m] keeps [P], whether it returns or raises. *)
Definition preserves {A} (P : World -> Prop) (m : M A) : Prop :=
  forall w, P w -> P (snd (m w)).

(** The timer discipline: a pending timer is the one [self._handle] names,
    and no two timers were ever pending together. *)
Definition timer_inv (w : World) : Prop :=
  (timers w = [] \/ exists h d, timers w = [(h, d)] /\ _handle w = Some h)
  /\ (peak w <= 1)%nat.

(** The active profile stays: the event is not a daytime switch. *)
Definition keeps_daytime (ev : Env * Event) : Prop :=
  match snd ev with
  | DaytimeSwitch _ => False
  | _ => True
  end.

(** The world [refresh_timer] leaves under the active daytime [a]: the
    timer [_handle] names is cancelled and, unless the delay is 0, a new
    one is pending. *)
Definition refreshed (a : Daytime) (w : World) : World :=
  if delay a =? 0 then set_timers (without (_handle w) (timers w)) w
  else
    let ts := without (_handle w) (timers w) ++ [(next_handle w, delay a)] in
    mkWorld (active w) (Some (next_handle w)) ts (S (next_handle w))
            (Nat.max (peak w) (List.length ts)) (cmds w) (logs w).

(** Under the active daytime [a], [m] only sends commands and writes log
    lines, the same ones whatever the timers are. *)
Definition writes {A} (a : Daytime) (m : M A) : Prop :=
  exists r C L, forall w, active w = Some a -> m w = (r, extend C L w).

(** ** A bathroom, used in the examples *)

Module Bath.

Definition day : Daytime := mkDaytime "day" 150 "07:30:00" (PInt 100) false.

Definition cfg : Config :=
  mkConfig "bath" ["binary_sensor.motion_sensor_bath"]
           ["sensor.humidity_shower"; "sensor.humidity_bath"]
           ["sensor.illumination_bath"]
           (PStr "on") (PStr "off") (Some (inject_Z 60)) (Some (inject_Z 40))
           ["switch.guard, on"; "input_select.mode, away; lock, None; level, high"]
           (inject_Z 3) (inject_Z 3) ["light.bath"].

(** Lights off, guard off, dark and dry. *)
Definition env : Env :=
  mkEnv (fun e a =>
           match a with
           | None =>
               if (e =? "light.bath")%string then PStr "off"
               else if (e =? "switch.guard")%string then PStr "off"
               else if (e =? "input_select.mode")%string then PStr "home"
               else if (e =? "sensor.illumination_bath")%string then PStr "12"
               else if (e =? "sensor.humidity_shower")%string then PStr "48.5"
               else if (e =? "sensor.humidity_bath")%string then PStr "45"
               else if (e =? "binary_sensor.motion_sensor_bath")%string then PStr "on"
               else PNone
           | Some _ => PNone
           end)
        (fun e => e).

(** [env] with the state of one entity replaced. *)
Definition having (e : string) (v : pyval) (base : Env) : Env :=
  mkEnv (fun e' a =>
           match a with
           | None => if (e' =? e)%string then v else get_state base e' None
           | Some _ => get_state base e' a
           end)
        (friendly_name base).

(** [env] with one attribute of one entity replaced. *)
Definition having_attr (e att : string) (v : pyval) (base : Env) : Env :=
  mkEnv (fun e' a =>
           match a with
           | Some att' =>
               if ((e' =? e) && (att' =? att))%string then v
               else get_state base e' a
           | None => get_state base e' None
           end)
        (friendly_name base).

Definition start : World := blank (Some day).

(** A profile that never switches off by itself. *)
Definition always : Daytime := mkDaytime "always" 0 "20:30:00" (PInt 100) false.

(** The guard switch is on. *)
Definition guarded : Env := having "switch.guard" (PStr "on") env.

(** The light is on. *)
Definition lit : Env := having "light.bath" (PStr "on") env.

(** The light is on and both humidity sensors read above 60. *)
Definition steamy : Env :=
  having "sensor.humidity_shower" (PStr "71")
         (having "sensor.humidity_bath" (PStr "65.5") lit).

(** The light is on and one humidity sensor is unavailable. *)
Definition offline : Env :=
  having "sensor.humidity_bath" (PStr "unavailable") lit.

Definition sensor : string := "binary_sensor.motion_sensor_bath".

(** The light was switched on by a motion pulse: timer 0 is pending. *)
Definition occupied : World :=
  mkWorld (Some day) (Some 0%nat) [(0%nat, 150)] 1%nat 1%nat
          [CreateFade "light.bath" "up" 100 (inject_Z 3)]
          [LogReceived "xiaomi_aqara.motion" sensor; LogBrightnessOn 100].

(** Timer 0 has just fired and left the pending set. *)
Definition fired : World :=
  mkWorld (Some day) (Some 0%nat) [] 1%nat 1%nat
          [CreateFade "light.bath" "up" 100 (inject_Z 3)]
          [LogReceived "xiaomi_aqara.motion" sensor; LogBrightnessOn 100].

End Bath.

(** ** Vocabulary of the further statements *)

(** The brightness the fade starts from: the attribute when it is an
    integer, 0 when it is unknown. *)
Definition initial_brightness (env : Env) (entity : string) : Z :=
  match get_state env entity (Some "brightness") with
  | PInt b => b
  | _ => 0
  end.

(** What [fade] computes once the brightness it starts from is the
    integer [i0]. *)
Definition fade_from (entity direction : string) (pct : Z) (duration : Q)
           (i0 : Z) : Res (list Cmd) :=
  let target := (inject_Z pct * 255 / 100)%Q in
  let points := (duration / (2 # 10))%Q in
  let delta := if (direction =? "up")%string
               then (target - inject_Z i0)%Q else (- (1) * inject_Z i0)%Q in
  if Qeq_bool points 0 then Err ZeroDivisionError
  else
    let? step := Py.math_ceil (Py.over (Finite delta) points) in
    Ok ((if step =? 0 then []
         else flat_map (fun b => [turn_on_brightness entity b; Sleep (2 # 10)])
                       (Py.range i0 (Py.trunc target) step))
        ++ [turn_on_brightness entity (Py.trunc target)]).

(** The sensor has a reading and it does not reach the threshold. *)
Definition below (env : Env) (th : Q) (sensor : string) : bool :=
  negb (unparsable env sensor) && negb (reaches env th sensor).

(** The command [lights_on] has for one light under a brightness profile. *)
Definition brightness_command (cfg : Config) (pct : Z) (entity : string) : Cmd :=
  if Py.startswith "switch." entity
  then CallService "homeassistant/turn_on" [("entity_id", PStr entity)]
  else CreateFade entity "up" pct (fadeSetting_on cfg).

Definition brightness_log (pct : Z) (entity : string) : list LogMsg :=
  if Py.startswith "switch." entity then [] else [LogBrightnessOn pct].

(** The command [lights_on] has for one light under a scene profile. *)
Definition scene_command (env : Env) (a : Daytime) (scene entity : string) : Cmd :=
  if is_hue_group a && Py.truthy (get_state env entity (Some "is_hue_group"))
  then CallService "hue/hue_activate_scene"
                   [("group_name", PStr (friendly_name env entity));
                    ("scene_name", PStr scene)]
  else CallService "homeassistant/turn_on"
                   [("entity_id",
                     PStr (if Py.startswith "scene." scene then scene else entity))].

Definition fade_out_command (cfg : Config) (entity : string) : Cmd :=
  CreateFade entity "down" 0 (fadeSetting_off cfg).

(** Some disable rule fires, and the lines are all well formed. *)
Definition vetoed (cfg : Config) (env : Env) : Prop :=
  Forall well_formed (disable_switch_entity cfg)
  /\ exists l, find (line_fires env) (disable_switch_entity cfg) = Some l.

(** The first field of the line does not split into entity and state. *)
Definition headless (line : string) : Prop :=
  parse_pair (hd EmptyString (Py.split ";" line)) = None.

(** Some motion sensor does not read the off state. *)
Definition motion_goes_on (cfg : Config) (env : Env) : Prop :=
  forallb (fun sensor => Py.eq (get_state env sensor None) (states_motion_off cfg))
          (sensors_motion cfg) = false.

(** The illuminance blocker lets the turn-on through: it is off, or every
    illuminance sensor has a reading under the threshold. *)
Definition illuminance_passes (cfg : Config) (env : Env) : Prop :=
  match thresholds_illuminance cfg with
  | Some th =>
      (th == 0)%Q
      \/ Forall (fun s => below env th s = true) (sensors_illuminance cfg)
  | None => True
  end.

(** The humidity blocker lets the turn-off through. *)
Definition humidity_passes (cfg : Config) (env : Env) : Prop :=
  match thresholds_humidity cfg with
  | Some th =>
      (th == 0)%Q
      \/ Forall (fun s => below env th s = true) (sensors_humidity cfg)
  | None => True
  end.

(** ** Building the daytimes *)

(** One entry of the [daytimes] argument: the keys it may carry. *)
Record DaytimeConf : Type := mkDaytimeConf {
  conf_starttime : option string;
  conf_name : option string;
  conf_delay : option Z;
  conf_light : option pyval
}.

(** The host's clock: [parse_time] gives a time of day (an integer stands
    for it; equal times are equal integers) or raises, [isoformat] prints
    it (this is also [str] of a time), [now_is_between] compares the
    current time with two printed times. *)
Record Clock : Type := mkClock {
  parse_time : option string -> Res Z;
  isoformat : Z -> string;
  now_is_between : string -> string -> Res bool
}.

(** What [build_daytimes] writes to: the app's fields, the daily callbacks
    registered with [run_daily(self.switch_daytime, dt_start, ...)] and
    [self.args["active_daytime"]]. *)
Record Setup : Type := mkSetup {
  su_world : World;
  su_daily : list (Z * Daytime);
  su_active_daytime : option string
}.

Definition DEFAULT_NAME : string := "daytime".
Definition DEFAULT_LIGHT_SETTING : pyval := PInt 100.
Definition DEFAULT_DELAY : pyval := PInt 150.

(** [str(idx)] *)
Definition str_of_nat (n : nat) : string :=
  NilEmpty.string_of_uint (Nat.to_uint n).

(** [str(daytime.get("starttime"))] *)
Definition str_of_starttime (s : option string) : string :=
  match s with
  | Some t => t
  | None => "None"
  end.

(** The dict [build_daytimes] lays out for the entry [conf] at index
    [idx], once its start time is parsed. *)
Definition built_daytime (env : Env) (clock : Clock) (lights : list string)
           (delay : Z) (idx : nat) (conf : DaytimeConf) (dt_start : Z) : Daytime :=
  let dt_name := match conf_name conf with
                 | Some n => n
                 | None => (DEFAULT_NAME ++ "_" ++ str_of_nat idx)%string
                 end in
  let dt_delay := match conf_delay conf with
                  | Some d => d
                  | None => delay
                  end in
  let dt_light_setting := match conf_light conf with
                          | Some v => v
                          | None => DEFAULT_LIGHT_SETTING
                          end in
  let dt_is_hue_group :=
    match dt_light_setting with
    | PStr s =>
        negb (Py.startswith "scene." s)
        && existsb (fun entity =>
                      Py.truthy (get_state env entity (Some "is_hue_group")))
                   lights
    | _ => false
    end in
  mkDaytime dt_name dt_delay (isoformat clock dt_start) dt_light_setting
            dt_is_hue_group.

(** The loop of [build_daytimes] from index [idx] on; [all] is the whole
    argument and [starttimes] the start times seen so far.  An exception
    of [parse_time] leaves the method ([ValueError] is caught and raised
    again as [ValueError]). *)
Fixpoint build_loop (env : Env) (clock : Clock) (lights : list string)
         (delay : Z) (all : list DaytimeConf)
         (idx : nat) (todo : list DaytimeConf) (starttimes : list Z) (s : Setup)
  : Res unit * Setup :=
  match todo with
  | [] => (Ok tt, s)
  | conf :: rest =>
      match parse_time clock (conf_starttime conf) with
      | Err e => (Err e, s)
      | Ok dt_start =>
          let dt := built_daytime env clock lights delay idx conf dt_start in
          let next_dt_start :=
            conf_starttime (nth ((idx + 1) mod List.length all) all conf) in
          if existsb (Z.eqb dt_start) starttimes then (Err ValueError, s)
          else
            match now_is_between clock (isoformat clock dt_start)
                                 (str_of_starttime next_dt_start) with
            | Err e => (Err e, s)
            | Ok b =>
                let s1 :=
                  if b then
                    mkSetup (snd (switch_daytime dt true (su_world s)))
                            (su_daily s) (Some (daytime dt))
                  else s in
                let s2 := mkSetup (su_world s1)
                                  (su_daily s1 ++ [(dt_start, dt)])
                                  (su_active_daytime s1) in
                build_loop env clock lights delay all (S idx) rest
                           (dt_start :: starttimes) s2
            end
      end
  end.

(** [build_daytimes(daytimes)], [arg_delay] being [self.args.get("delay")]
    when it is there.  The value returned is the argument itself. *)
Definition build_daytimes (env : Env) (clock : Clock) (lights : list string)
           (arg_delay : option pyval) (daytimes : list DaytimeConf) (s : Setup)
  : Res (list DaytimeConf) * Setup :=
  match Py.int (match arg_delay with Some v => v | None => DEFAULT_DELAY end) with
  | Err e => (Err e, s)
  | Ok delay =>
      match build_loop env clock lights delay daytimes 0 daytimes [] s with
      | (Ok _, s') => (Ok daytimes, s')
      | (Err e, s') => (Err e, s')
      end
  end.

(** The dicts of a run of entries from index [idx] on, given their parsed
    start times. *)
Fixpoint built_from (env : Env) (clock : Clock) (lights : list string)
         (delay : Z) (idx : nat) (confs : list DaytimeConf) (ts : list Z)
  : list (Z * Daytime) :=
  match confs, ts with
  | conf :: confs', t :: ts' =>
      (t, built_daytime env clock lights delay idx conf t)
      :: built_from env clock lights delay (S idx) confs' ts'
  | _, _ => []
  end.

(** The window of the entry [conf] at index [idx], from its start time to
    the start time of the entry after it (the first one after the last),
    contains the current time. *)
Definition window_open (clock : Clock) (all : list DaytimeConf) (idx : nat)
           (conf : DaytimeConf) (t : Z) : bool :=
  match now_is_between clock (isoformat clock t)
          (str_of_starttime
             (conf_starttime (nth ((idx + 1) mod List.length all) all conf))) with
  | Ok b => b
  | Err _ => false
  end.

(** The start times all parse, to [ts]. *)
Definition starts_parse (clock : Clock) (confs : list DaytimeConf) (ts : list Z)
  : Prop :=
  Forall2 (fun c t => parse_time clock (conf_starttime c) = Ok t) confs ts.

(** The clock answers every [now_is_between] question. *)
Definition clock_answers (clock : Clock) : Prop :=
  forall a b, exists r, now_is_between clock a b = Ok r.

(** [after] is the active daytime once the entries [confs], which sit at
    the indices from [idx] on and start at [ts], have been gone through
    with [before] active: the dict of the last entry whose window is
    open, or [before] when no window is open. *)
Definition latest_open_window (env : Env) (clock : Clock) (lights : list string)
           (delay : Z) (all : list DaytimeConf) (idx : nat)
           (confs : list DaytimeConf) (ts : list Z)
           (before after : option Daytime) : Prop :=
  (after = before
   /\ forall k c t,
       nth_error confs k = Some c -> nth_error ts k = Some t ->
       window_open clock all (idx + k) c t = false)
  \/ (exists k c t,
         nth_error confs k = Some c /\ nth_error ts k = Some t
         /\ window_open clock all (idx + k) c t = true
         /\ after = Some (built_daytime env clock lights delay (idx + k) c t)
         /\ forall j c' t',
             (k < j)%nat ->
             nth_error confs j = Some c' -> nth_error ts j = Some t' ->
             window_open clock all (idx + j) c' t' = false).

(** ** The listeners of [initialize] *)

Inductive Callback : Type :=
| CbMotionEvent
| CbMotionDetected
| CbMotionCleared.

(** [listen_event(callback, event=..., entity_id=...)] and
    [listen_state(callback, entity=..., new=...)]. *)
Inductive Listener : Type :=
| ListenEvent (cb : Callback) (event entity_id : string)
| ListenState (cb : Callback) (entity : string) (new : pyval).

(** What the loop over the motion sensors at the end of [initialize]
    registers: the event listener when neither state is configured, the
    two state listeners when both are, nothing otherwise. *)
Definition listeners_of (cfg : Config) : list Listener :=
  flat_map
    (fun sensor =>
       if negb (Py.truthy (states_motion_on cfg) || Py.truthy (states_motion_off cfg))
       then [ListenEvent CbMotionEvent EVENT_MOTION_XIAOMI sensor]
       else if Py.truthy (states_motion_on cfg) && Py.truthy (states_motion_off cfg)
            then [ListenState CbMotionDetected sensor (states_motion_on cfg);
                  ListenState CbMotionCleared sensor (states_motion_off cfg)]
            else [])
    (sensors_motion cfg).

(** ** A day, used in the examples *)

Module Day.

(** The default daytimes of the app. *)
Definition defaults : list DaytimeConf :=
  [mkDaytimeConf (Some "05:30") (Some "morning") None (Some (PInt 25));
   mkDaytimeConf (Some "07:30") (Some "day") None (Some (PInt 100));
   mkDaytimeConf (Some "20:30") (Some "evening") None (Some (PInt 90));
   mkDaytimeConf (Some "22:30") (Some "night") None (Some (PInt 0))].

(** Minutes since midnight of [HH:MM] or [HH:MM:SS]. *)
Definition minutes (s : string) : Res Z :=
  match map Py.parse_int (Py.split ":" s) with
  | [Some h; Some m] => Ok (h * 60 + m)
  | [Some h; Some m; Some _] => Ok (h * 60 + m)
  | _ => Err ValueError
  end.

Definition two_digits (n : Z) : string :=
  String.append (if n <? 10 then "0" else EmptyString) (str_of_nat (Z.to_nat n)).

(** A clock that reads [now] minutes past midnight. *)
Definition clock (now : Z) : Clock :=
  mkClock
    (fun s => match s with
              | Some t => minutes t
              | None => Err TypeError
              end)
    (fun t => (two_digits (t / 60) ++ ":" ++ two_digits (t mod 60) ++ ":00")%string)
    (fun a b =>
       let? x := minutes a in
       let? y := minutes b in
       Ok (if x <=? y then (x <=? now) && (now <? y)
           else (x <=? now) || (now <? y))).

(** The same clock, except that a question about something that is not a
    time is answered with no. *)
Definition lenient (now : Z) : Clock :=
  mkClock (parse_time (clock now)) (isoformat (clock now))
          (fun a b => match now_is_between (clock now) a b with
                      | Ok r => Ok r
                      | Err _ => Ok false
                      end).

Definition setup : Setup := mkSetup (blank None) [] None.

End Day.

(** * Properties *)

(** ** The builtins on sample inputs *)

Example split_rule :
  Py.split ";" "switch.guard, on; mode, away" = ["switch.guard, on"; " mode, away"].
Proof. reflexivity. Qed.

Example split_empty : Py.split ";" EmptyString = [EmptyString].
Proof. reflexivity. Qed.

Example strip_field : Py.strip "  on " = "on".
Proof. reflexivity. Qed.

Example float_decimal : Py.float (PStr "65.3") = Ok (Finite (Qmake 653 10)).
Proof. reflexivity. Qed.

Example float_exponent : Py.float (PStr "1e-05") = Ok (Finite (Qmake 1 100000)).
Proof. reflexivity. Qed.

Example float_unavailable : Py.float (PStr "unavailable") = Err ValueError.
Proof. reflexivity. Qed.

Example float_grouped_digits : Py.float (PStr " 1_0.5_5 ") = Ok (Finite (Qmake 1055 100)).
Proof. reflexivity. Qed.

Example float_stray_underscore : Py.float (PStr "1__0") = Err ValueError.
Proof. reflexivity. Qed.

Example float_not_a_number : Py.float (PStr "NaN") = Ok NaN.
Proof. reflexivity. Qed.

Example float_minus_infinity : Py.float (PStr "-Infinity") = Ok NegInf.
Proof. reflexivity. Qed.

Example float_beyond_the_doubles : Py.float (PStr "1e400") = Ok PosInf.
Proof. vm_compute. reflexivity. Qed.

Example int_grouped_digits : Py.int (PStr "1_000") = Ok 1000.
Proof. reflexivity. Qed.

Example float_none : Py.float PNone = Err TypeError.
Proof. reflexivity. Qed.

Example range_up : Py.range 0 10 3 = [0; 3; 6; 9].
Proof. reflexivity. Qed.

Example range_down : Py.range 255 0 (-100) = [255; 155; 55].
Proof. reflexivity. Qed.

Example range_empty : Py.range 5 2 1 = [].
Proof. reflexivity. Qed.

(** ** The fade executor *)

Example fade_up_from_dark :
  fade Bath.env "light.bath" "up" 100 (inject_Z 3)
  = Ok (flat_map (fun b => [turn_on_brightness "light.bath" b; Sleep (2 # 10)])
                 [0; 17; 34; 51; 68; 85; 102; 119; 136; 153; 170; 187; 204;
                  221; 238]
        ++ [turn_on_brightness "light.bath" 255]).
Proof. vm_compute. reflexivity. Qed.

Example fade_down_from_200 :
  fade (Bath.having_attr "light.bath" "brightness" (PInt 200) Bath.env)
       "light.bath" "down" 0 (inject_Z 3)
  = Ok (flat_map (fun b => [turn_on_brightness "light.bath" b; Sleep (2 # 10)])
                 [200; 187; 174; 161; 148; 135; 122; 109; 96; 83; 70; 57; 44;
                  31; 18; 5]
        ++ [turn_on_brightness "light.bath" 0]).
Proof. vm_compute. reflexivity. Qed.

Lemma trunc_target (pct : Z) :
  0 <= pct -> Py.trunc (inject_Z pct * 255 / 100)%Q = pct * 255 / 100.
Proof.
  intros Hpct. unfold Py.trunc. cbn.
  rewrite Z.mul_1_r. apply Z.quot_div_nonneg; lia.
Qed.

Lemma adjPoints_nonzero (duration : Q) :
  (0 < duration)%Q -> Qeq_bool (duration / (2 # 10)) 0 = false.
Proof.
  intros Hd. destruct (Qeq_bool (duration / (2 # 10)) 0) eqn:E; [|reflexivity].
  apply Qeq_bool_eq in E.
  assert (H : (duration == 0)%Q).
  { rewrite <- (Qmult_div_r duration (2 # 10)) by discriminate.
    rewrite E. reflexivity. }
  rewrite H in Hd. discriminate Hd.
Qed.

Lemma duration_in_range_positive (duration : Q) :
  duration_in_range duration -> (0 < duration)%Q.
Proof.
  intros [Hlo _]. apply Qlt_le_trans with (/ fade_range)%Q; [|exact Hlo].
  apply Qinv_lt_0_compat. reflexivity.
Qed.

Lemma math_ceil_fit (q : Q) (z : Z) :
  Py.math_ceil (Py.fit q) = Ok z -> z = Py.ceil q.
Proof.
  unfold Py.fit.
  destruct (Qle_bool Py.float_overflow q); [discriminate|].
  destruct (Qle_bool q (- Py.float_overflow)); [discriminate|].
  simpl. intros H. injection H as <-. reflexivity.
Qed.

Lemma fit_finite (q : Q) :
  (- Py.float_overflow < q)%Q -> (q < Py.float_overflow)%Q ->
  Py.fit q = Finite q.
Proof.
  intros Hlo Hhi. unfold Py.fit.
  destruct (Qle_bool Py.float_overflow q) eqn:E1.
  { apply Qle_bool_imp_le in E1. exfalso. apply (Qlt_not_le _ _ Hhi E1). }
  destruct (Qle_bool q (- Py.float_overflow)) eqn:E2.
  { apply Qle_bool_imp_le in E2. exfalso. apply (Qlt_not_le _ _ Hlo E2). }
  reflexivity.
Qed.

Lemma quotient_in_range (d p : Q) :
  (- (fade_range + 255) <= d <= fade_range + 255)%Q ->
  (5 / fade_range <= p)%Q ->
  (- Py.float_overflow < d / p)%Q /\ (d / p < Py.float_overflow)%Q.
Proof.
  intros [Hlo Hhi] Hp.
  set (B := (fade_range + 255)%Q) in *.
  set (M := (B * (fade_range / 5))%Q).
  assert (HM : (M < Py.float_overflow)%Q) by (vm_compute; reflexivity).
  assert (HM0 : (0 <= M)%Q) by (vm_compute; discriminate).
  assert (HB : (M * (5 / fade_range) == B)%Q) by (vm_compute; reflexivity).
  assert (Hp0 : (0 < p)%Q).
  { apply Qlt_le_trans with (5 / fade_range)%Q; [vm_compute; reflexivity | exact Hp]. }
  assert (HMp : (B <= M * p)%Q).
  { rewrite <- HB. rewrite !(Qmult_comm M).
    apply Qmult_le_compat_r; [exact Hp | exact HM0]. }
  split.
  - apply Qlt_le_trans with (- M)%Q.
    + apply Qopp_lt_compat. exact HM.
    + apply Qle_shift_div_l; [exact Hp0|].
      apply Qle_trans with (- B)%Q; [|exact Hlo].
      setoid_replace (- M * p)%Q with (- (M * p))%Q by ring.
      apply Qopp_le_compat. exact HMp.
  - apply Qle_lt_trans with M; [|exact HM].
    apply Qle_shift_div_r; [exact Hp0|].
    apply Qle_trans with B; [exact Hhi | exact HMp].
Qed.

Lemma points_in_range (duration : Q) :
  duration_in_range duration -> (5 / fade_range <= duration / (2 # 10))%Q.
Proof.
  intros [Hlo _].
  setoid_replace (5 / fade_range)%Q with (/ fade_range / (2 # 10))%Q
    by (vm_compute; reflexivity).
  unfold Qdiv. apply Qmult_le_compat_r; [exact Hlo | discriminate].
Qed.

Lemma target_in_range (pct : Z) :
  0 <= pct <= 100 -> (0 <= inject_Z pct * 255 / 100 <= 255)%Q.
Proof.
  intros Hpct. split.
  - apply Qle_shift_div_l; [reflexivity|]. rewrite Qmult_0_l.
    change 0%Q with (inject_Z 0). change 255%Q with (inject_Z 255).
    rewrite <- inject_Z_mult, <- Zle_Qle. lia.
  - apply Qle_shift_div_r; [reflexivity|].
    change 255%Q with (inject_Z 255). change 100%Q with (inject_Z 100).
    rewrite <- !inject_Z_mult, <- Zle_Qle. lia.
Qed.

Lemma fade_runs (env : Env) (entity direction : string) (pct : Z) (duration : Q) :
  0 <= pct <= 100 ->
  duration_in_range duration ->
  brightness_in_range env entity ->
  exists ramp,
    fade env entity direction pct duration
    = Ok (ramp ++ [turn_on_brightness entity (pct * 255 / 100)]).
Proof.
  intros Hpct Hd (x & y & Hx & Hy & Hlo & Hhi).
  unfold start_value in Hx, Hy. cbv zeta in Hx, Hy.
  unfold fade. cbv zeta. rewrite Hx, Hy.
  rewrite (adjPoints_nonzero duration (duration_in_range_positive duration Hd)).
  rewrite (trunc_target pct) by lia.
  destruct (target_in_range pct Hpct) as [HT0 HT1].
  pose proof (points_in_range duration Hd) as Hp.
  assert (Hneg : (-(255) <= 0)%Q) by discriminate.
  destruct (direction =? "up")%string; simpl res_bind; unfold Py.sub_from, Py.times, Py.over.
  - destruct (quotient_in_range (inject_Z pct * 255 / 100 - x) (duration / (2 # 10)))
      as [Q1 Q2]; [|exact Hp|].
    { unfold Qminus. split.
      - setoid_replace (- (fade_range + 255))%Q with (- (255) + - fade_range)%Q by ring.
        apply Qplus_le_compat; [apply Qle_trans with 0%Q; assumption|].
        apply Qopp_le_compat. exact Hhi.
      - rewrite (Qplus_comm fade_range).
        apply Qplus_le_compat; [exact HT1|].
        setoid_replace fade_range with (- - fade_range)%Q by ring.
        apply Qopp_le_compat. exact Hlo. }
    rewrite (fit_finite _ Q1 Q2). simpl res_bind.
    match goal with
    | |- context [if ?c then Ok [] else _] => destruct c
    end; simpl res_bind;
    first [ now exists [] | eexists; reflexivity ].
  - destruct (quotient_in_range (- (1) * x) (duration / (2 # 10)))
      as [Q1 Q2]; [|exact Hp|].
    { split.
      - setoid_replace (- (1) * x)%Q with (- x)%Q by ring.
        apply Qopp_le_compat.
        apply Qle_trans with fade_range; [exact Hhi|].
        rewrite <- (Qplus_0_r fade_range) at 1.
        apply Qplus_le_compat; [apply Qle_refl | discriminate].
      - setoid_replace (- (1) * x)%Q with (- x)%Q by ring.
        apply Qle_trans with fade_range.
        + setoid_replace fade_range with (- - fade_range)%Q by ring.
          apply Qopp_le_compat. exact Hlo.
        + rewrite <- (Qplus_0_r fade_range) at 1.
          apply Qplus_le_compat; [apply Qle_refl | discriminate]. }
    rewrite (fit_finite _ Q1 Q2). simpl res_bind.
    match goal with
    | |- context [if ?c then Ok [] else _] => destruct c
    end; simpl res_bind;
    first [ now exists [] | eexists; reflexivity ].
Qed.

(** C3, as amended: on every call with a target percentage between 0 and
    100, a duration between 1e-150 and 1e150 seconds and an initial
    brightness that is unknown or a value [float] and [int] both convert
    (a number, or a string that spells an integer) of magnitude at most
    1e150, the fade executor runs to its end and its last command sets
    the brightness to the target on the 255 scale truncated to an
    integer, [targetPercent * 255 / 100] rounded down, whatever the
    intermediate steps were (none included). *)
Theorem C3_fade_final_command
        (env : Env) (entity direction : string) (pct : Z) (duration : Q) :
  0 <= pct <= 100 ->
  duration_in_range duration ->
  brightness_in_range env entity ->
  exists ramp,
    fade env entity direction pct duration
    = Ok (ramp ++ [turn_on_brightness entity (pct * 255 / 100)]).
Proof.
  intros Hpct Hd Hb. apply fade_runs; assumption.
Qed.

Lemma C3_fade_final_command_witness :
  exists ramp,
    fade Bath.env "light.bath" "up" 50 (inject_Z 3)
    = Ok (ramp ++ [turn_on_brightness "light.bath" (50 * 255 / 100)]).
Proof.
  apply (C3_fade_final_command Bath.env "light.bath" "up" 50 (inject_Z 3)).
  - lia.
  - split; apply Qle_bool_imp_le; vm_compute; reflexivity.
  - exists (inject_Z 0), 0. split; [reflexivity|]. split; [reflexivity|].
    split; apply Qle_bool_imp_le; vm_compute; reflexivity.
Defined.

(** C3, as the specification words it, fails at a target of 1 percent:
    2.55 rounds to 3, the executor's last command sets the brightness to 2.
    It also fails where no final command is sent at all: at a positive
    duration so short that the step leaves the doubles (1e-310 seconds),
    and from an initial brightness that is not a number. *)
Lemma C3_counterexample :
  round_nearest (inject_Z 1 * 255 / 100)%Q = 3
  /\ fade Bath.env "light.bath" "up" 1 (inject_Z 3)
     = Ok [turn_on_brightness "light.bath" 0; Sleep (2 # 10);
           turn_on_brightness "light.bath" 1; Sleep (2 # 10);
           turn_on_brightness "light.bath" 2]
  /\ last [turn_on_brightness "light.bath" 0; Sleep (2 # 10);
           turn_on_brightness "light.bath" 1; Sleep (2 # 10);
           turn_on_brightness "light.bath" 2] (Sleep 0)
     <> turn_on_brightness "light.bath"
                           (round_nearest (inject_Z 1 * 255 / 100)%Q)
  /\ (0 < 1 # 10 ^ 310)%Q
  /\ fade Bath.env "light.bath" "up" 100 (1 # 10 ^ 310) = Err OverflowError
  /\ fade (Bath.having_attr "light.bath" "brightness" (PStr "unavailable") Bath.env)
          "light.bath" "up" 100 (inject_Z 3)
     = Err ValueError.
Proof.
  split; [reflexivity|]. split; [vm_compute; reflexivity|].
  split; [vm_compute; discriminate|].
  split; [reflexivity|]. split; vm_compute; reflexivity.
Qed.

(** [int] refuses the spelling of a fraction that [float] takes. *)
Example fade_from_fraction_in_a_string :
  fade (Bath.having_attr "light.bath" "brightness" (PStr "127.5") Bath.env)
       "light.bath" "up" 100 (inject_Z 3)
  = Err ValueError.
Proof. vm_compute. reflexivity. Qed.

(** An infinite brightness gives an infinite step, which [math.ceil]
    refuses. *)
Example fade_from_infinite_brightness :
  fade (Bath.having_attr "light.bath" "brightness" (PStr "inf") Bath.env)
       "light.bath" "down" 0 (inject_Z 3)
  = Err OverflowError.
Proof. vm_compute. reflexivity. Qed.

Example fade_from_a_float :
  fade (Bath.having_attr "light.bath" "brightness" (PFloat (51 # 2)) Bath.env)
       "light.bath" "down" 0 (inject_Z 1)
  = Ok (flat_map (fun b => [turn_on_brightness "light.bath" b; Sleep (2 # 10)])
                 [25; 20; 15; 10; 5]
        ++ [turn_on_brightness "light.bath" 0]).
Proof. vm_compute. reflexivity. Qed.

(** ** Disable rules *)

Lemma unpack_pair_parse (field : string) :
  unpack_pair field = match parse_pair field with
                      | Some p => Ok p
                      | None => Err ValueError
                      end.
Proof.
  unfold unpack_pair, parse_pair.
  destruct (Py.split "," field) as [|a [|b [|c l]]]; reflexivity.
Qed.

Lemma att_satisfied_matches (env : Env) (entity : string) (c : string * string) :
  att_satisfied (get_state env entity (Some (fst c))) (snd c)
  = condition_matches env entity c.
Proof.
  unfold att_satisfied, condition_matches.
  destruct (get_state env entity (Some (fst c))); cbn -[String.eqb];
    rewrite ?orb_false_r; try reflexivity.
  apply String.eqb_sym.
Qed.

Lemma att_loop_exists (env : Env) (entity : string) :
  forall fields cs,
    parse_conditions fields = Some cs ->
    att_loop env entity fields = Ok (existsb (condition_matches env entity) cs).
Proof.
  induction fields as [|f rest IH]; intros cs Hp; simpl in *.
  - injection Hp as <-. reflexivity.
  - rewrite unpack_pair_parse.
    destruct (parse_pair f) as [c|]; [|discriminate].
    destruct (parse_conditions rest) as [cs'|]; [|discriminate].
    injection Hp as <-. simpl.
    rewrite att_satisfied_matches, (IH cs' eq_refl).
    destruct (condition_matches env entity c); reflexivity.
Qed.

Lemma eval_rule_fires (env : Env) (line : string) (r : DisableRule) :
  parse_rule line = Some r ->
  eval_disable_switch_conf env line = Ok (rule_fires env r).
Proof.
  unfold parse_rule, eval_disable_switch_conf, rule_fires.
  destruct (Py.split ";" line) as [|first fields]; [discriminate|].
  simpl hd. simpl tl. rewrite unpack_pair_parse.
  destruct (parse_pair first) as [p|]; [|discriminate].
  destruct (parse_conditions fields) as [cs|] eqn:Hcs; [|discriminate].
  intros H. injection H as <-.
  cbn [res_bind entityId expectedState attributeConditions].
  destruct (Py.eq (get_state env (fst p) None) (PStr (snd p))); [|reflexivity].
  cbn [andb]. destruct fields as [|f rest].
  - simpl in Hcs. injection Hcs as <-. reflexivity.
  - rewrite (att_loop_exists env (fst p) (f :: rest) cs Hcs).
    destruct cs; [|reflexivity].
    simpl in Hcs. destruct (parse_pair f); [|discriminate].
    destruct (parse_conditions rest); discriminate.
Qed.

Lemma eval_line_fires (env : Env) (line : string) :
  well_formed line ->
  eval_disable_switch_conf env line = Ok (line_fires env line).
Proof.
  unfold well_formed, line_fires. intros Hwf.
  destruct (parse_rule line) as [r|] eqn:Hr; [|congruence].
  apply eval_rule_fires, Hr.
Qed.

Lemma check_disabled_first (env : Env) (l : string) :
  forall lines w,
    Forall well_formed lines ->
    find (line_fires env) lines = Some l ->
    check_disabled env lines w = (Ok true, note (LogDisabled l) w).
Proof.
  induction lines as [|x rest IH]; intros w Hwf Hfind; [discriminate|].
  inversion Hwf as [|? ? Hx Hrest]; subst.
  simpl in *. unfold bind, lift. rewrite (eval_line_fires env x Hx).
  destruct (line_fires env x).
  - injection Hfind as <-. reflexivity.
  - apply IH; assumption.
Qed.

Lemma check_disabled_clear (cfg : Config) (env : Env) (w : World) :
  not_disabled cfg env ->
  check_disabled env (disable_switch_entity cfg) w = (Ok false, w).
Proof.
  unfold not_disabled. induction 1 as [|x rest Hx _ IH]; [reflexivity|].
  simpl. unfold bind, lift. rewrite Hx. exact IH.
Qed.

(** C9: a configuration line that denotes a disable rule vetoes exactly
    when the entity's state equals the expected state and (the rule has
    no attribute condition or at least one of them matches, an expected
    value of None matching an absent attribute); the rules are tried in
    order and the first one that fires ends both the motion handler and
    the turn-off handler before they do anything else. *)
Theorem C9_disable_rules (env : Env) :
  (forall line r,
      parse_rule line = Some r ->
      eval_disable_switch_conf env line = Ok (rule_fires env r))
  /\ (forall cfg w event entity l,
         Forall well_formed (disable_switch_entity cfg) ->
         find (line_fires env) (disable_switch_entity cfg) = Some l ->
         motion_event cfg env event entity w
         = (Ok tt, note (LogDisabled l) (note (LogReceived event entity) w))
         /\ lights_off cfg env w = (Ok tt, note (LogDisabled l) w)).
Proof.
  split.
  - intros line r. apply eval_rule_fires.
  - intros cfg w event entity l Hwf Hfind. split.
    + unfold motion_event, bind, log, modify.
      rewrite (check_disabled_first env l _ _ Hwf Hfind). reflexivity.
    + unfold lights_off, bind.
      rewrite (check_disabled_first env l _ _ Hwf Hfind). reflexivity.
Qed.

(** The guard switch is on: the first rule fires, the second one is not
    looked at, nothing is sent and no timer is touched. *)
Lemma C9_disable_rules_witness :
  eval_disable_switch_conf Bath.guarded "switch.guard, on"
  = Ok (rule_fires Bath.guarded (mkRule "switch.guard" "on" []))
  /\ motion_event Bath.cfg Bath.guarded EVENT_MOTION_XIAOMI Bath.sensor Bath.start
     = (Ok tt, note (LogDisabled "switch.guard, on")
                    (note (LogReceived EVENT_MOTION_XIAOMI Bath.sensor)
                          Bath.start))
  /\ lights_off Bath.cfg Bath.guarded Bath.start
     = (Ok tt, note (LogDisabled "switch.guard, on") Bath.start).
Proof.
  split.
  - apply (proj1 (C9_disable_rules Bath.guarded) "switch.guard, on"
                 (mkRule "switch.guard" "on" [])).
    reflexivity.
  - apply (proj2 (C9_disable_rules Bath.guarded) Bath.cfg Bath.start).
    + repeat constructor; discriminate.
    + reflexivity.
Defined.

Example guard_rule_fires :
  rule_fires Bath.guarded (mkRule "switch.guard" "on" []) = true
  /\ rule_fires Bath.env (mkRule "switch.guard" "on" []) = false.
Proof. split; reflexivity. Qed.

Example rule_with_attributes :
  let env := Bath.having "input_select.mode" (PStr "away") Bath.env in
  parse_rule "input_select.mode, away; lock, None; level, high"
  = Some (mkRule "input_select.mode" "away" [("lock", "None"); ("level", "high")])
  /\ eval_disable_switch_conf
       env "input_select.mode, away; lock, None; level, high" = Ok true
  /\ eval_disable_switch_conf
       (Bath.having_attr "input_select.mode" "lock" (PStr "shut") env)
       "input_select.mode, away; lock, None; level, high" = Ok false
  /\ eval_disable_switch_conf
       Bath.env "input_select.mode, away; lock, None; level, high" = Ok false.
Proof. repeat split; reflexivity. Qed.

Example rule_malformed :
  eval_disable_switch_conf (Bath.having "switch.guard" (PStr "on") Bath.env)
                           "switch.guard, on;" = Err ValueError
  /\ eval_disable_switch_conf Bath.env "switch.guard, on;" = Ok false.
Proof. split; reflexivity. Qed.

(** ** Properties kept by every handler *)

Section Frame.

Variable P : World -> Prop.

Hypothesis P_note : forall l w, P w -> P (note l w).
Hypothesis P_emit : forall c w, P w -> P (emit c w).
Hypothesis P_cancel : forall h w, P w -> P (snd (cancel_timer h w)).
Hypothesis P_refresh : forall w, P w -> P (snd (refresh_timer w)).

Lemma pres_ret {A} (a : A) : preserves P (ret a).
Proof. intros w Hw. exact Hw. Qed.

Lemma pres_raise {A} (e : exn) : preserves P (@raise A e).
Proof. intros w Hw. exact Hw. Qed.

Lemma pres_lift {A} (r : Res A) : preserves P (lift r).
Proof. intros w Hw. exact Hw. Qed.

Lemma pres_gets {A} (f : World -> A) : preserves P (gets f).
Proof. intros w Hw. exact Hw. Qed.

Lemma pres_the_active : preserves P the_active.
Proof. intros w Hw. unfold the_active. destruct (active w); exact Hw. Qed.

Lemma pres_bind {A B} (m : M A) (k : A -> M B) :
  preserves P m -> (forall a, preserves P (k a)) -> preserves P (bind m k).
Proof.
  intros Hm Hk w Hw. unfold bind. specialize (Hm w Hw).
  destruct (m w) as [[a|e] w']; simpl in *; [apply Hk|]; assumption.
Qed.

Lemma pres_log (l : LogMsg) : preserves P (log l).
Proof. intros w Hw. apply P_note, Hw. Qed.

Lemma pres_call_service (service : string) (kwargs : list (string * pyval)) :
  preserves P (call_service service kwargs).
Proof. intros w Hw. apply P_emit, Hw. Qed.

Lemma pres_create_task (c : Cmd) : preserves P (create_task c).
Proof. intros w Hw. apply P_emit, Hw. Qed.

Lemma pres_cancel_timer (h : option nat) : preserves P (cancel_timer h).
Proof. intros w Hw. apply P_cancel, Hw. Qed.

Lemma pres_refresh_timer : preserves P refresh_timer.
Proof. exact P_refresh. Qed.

Lemma pres_for_each {A} (xs : list A) (body : A -> M unit) :
  (forall x, preserves P (body x)) -> preserves P (for_each xs body).
Proof.
  intros Hbody. induction xs as [|x rest IH]; simpl.
  - apply pres_ret.
  - apply pres_bind; [apply Hbody | intros _; exact IH].
Qed.

Ltac pres_step :=
  first
    [ apply pres_ret | apply pres_raise | apply pres_lift | apply pres_gets
    | apply pres_the_active | apply pres_log | apply pres_call_service
    | apply pres_create_task | apply pres_cancel_timer
    | apply pres_refresh_timer
    | apply pres_for_each; intros ?
    | apply pres_bind; [|intros ?]
    | match goal with
      | |- preserves _ (if ?c then _ else _) => destruct c
      | |- preserves _ (match ?x with _ => _ end) => destruct x
      end ].

Lemma pres_check_disabled (env : Env) (lines : list string) :
  preserves P (check_disabled env lines).
Proof.
  induction lines as [|l rest IH]; simpl; [apply pres_ret|].
  apply pres_bind; [apply pres_lift|]. intros [|]; [|exact IH].
  repeat pres_step.
Qed.

Lemma pres_lights_off (cfg : Config) (env : Env) :
  preserves P (lights_off cfg env).
Proof.
  unfold lights_off.
  apply pres_bind; [apply pres_check_disabled|]. intros ?.
  repeat pres_step.
Qed.

Lemma pres_illuminance_loop (env : Env) (th : Q) (sensors : list string) :
  forall blocker, preserves P (illuminance_loop env th sensors blocker).
Proof.
  induction sensors as [|s rest IH]; intros blocker; simpl.
  - apply pres_ret.
  - destruct (Py.float (get_state env s None)) as [r|[]];
      try apply IH; repeat pres_step.
Qed.

Lemma pres_lights_on (cfg : Config) (env : Env) :
  preserves P (lights_on cfg env).
Proof.
  unfold lights_on, turn_on_entity.
  apply pres_bind.
  - destruct (threshold_set (thresholds_illuminance cfg)); [|apply pres_ret].
    apply pres_bind; [apply pres_illuminance_loop|]. intros ?.
    repeat pres_step.
  - intros [|]; [apply pres_ret|].
    apply pres_bind; [apply pres_the_active|]. intros a.
    destruct (light_setting a); simpl as_int;
      repeat first [ apply pres_lights_off | pres_step ].
Qed.

Lemma pres_motion_event (cfg : Config) (env : Env) (event entity : string) :
  preserves P (motion_event cfg env event entity).
Proof.
  unfold motion_event.
  apply pres_bind; [apply pres_log|]. intros _.
  apply pres_bind; [apply pres_check_disabled|]. intros [|]; [apply pres_ret|].
  apply pres_bind.
  - destruct (negb (any_light_on cfg env));
      [apply pres_lights_on | apply pres_log].
  - intros _. repeat pres_step.
Qed.

Lemma pres_motion_detected (cfg : Config) (env : Env) (entity : string) :
  preserves P (motion_detected cfg env entity).
Proof.
  unfold motion_detected.
  apply pres_bind; [apply pres_gets|]. intros h.
  apply pres_bind; [|intros _; apply pres_motion_event].
  repeat pres_step.
Qed.

Lemma pres_motion_cleared (cfg : Config) (env : Env) :
  preserves P (motion_cleared cfg env).
Proof. unfold motion_cleared. repeat pres_step. Qed.

Lemma pres_dispatch (cfg : Config) (ev : Env * Event) :
  keeps_daytime ev -> preserves P (dispatch cfg (fst ev) (snd ev)).
Proof.
  destruct ev as [env [entity|entity| |h|d]]; simpl; intros Hk.
  - apply pres_motion_event.
  - apply pres_motion_detected.
  - apply pres_motion_cleared.
  - apply pres_bind; [apply pres_gets|]. intros [|]; [|apply pres_ret].
    apply pres_bind; [apply pres_cancel_timer|]. intros _.
    apply pres_lights_off.
  - contradiction.
Qed.

Lemma pres_initialize_listeners (cfg : Config) :
  preserves P (initialize_listeners cfg).
Proof. unfold initialize_listeners. repeat pres_step. Qed.

Lemma pres_run (cfg : Config) (evs : list (Env * Event)) :
  Forall keeps_daytime evs ->
  forall w, P w -> P (run cfg evs w).
Proof.
  unfold run. induction 1 as [|ev rest Hev _ IH]; intros w Hw; simpl.
  - exact Hw.
  - apply IH. apply (pres_dispatch cfg ev Hev w Hw).
Qed.

End Frame.

(** ** Timer discipline *)

Lemma without_own_handle (h : nat) (d : Z) : without (Some h) [(h, d)] = [].
Proof. unfold without. simpl. rewrite Nat.eqb_refl. reflexivity. Qed.

Lemma timer_inv_cancel (h : option nat) (w : World) :
  timer_inv w -> timer_inv (snd (cancel_timer h w)).
Proof.
  intros [[Hts | (h0 & d & Hts & Hh)] Hpeak]; split; simpl; try assumption;
    rewrite Hts; simpl.
  - left. reflexivity.
  - destruct (negb (is_handle h (h0, d))); [right; eauto | left; reflexivity].
Qed.

Lemma timer_inv_refresh (w : World) :
  timer_inv w -> timer_inv (snd (refresh_timer w)).
Proof.
  intros Hinv.
  assert (Hnone : filter (fun t => negb (is_handle (_handle w) t)) (timers w) = []).
  { destruct Hinv as [[Hts | (h0 & d & Hts & Hh)] _]; rewrite Hts.
    - reflexivity.
    - rewrite Hh. apply without_own_handle. }
  destruct Hinv as [_ Hpeak].
  unfold refresh_timer, bind, gets, cancel_timer, modify, the_active, run_in.
  simpl. rewrite Hnone. destruct (active w) as [a|]; simpl.
  - destruct (delay a =? 0); simpl; split; simpl; eauto.
    apply Nat.max_lub; [assumption | apply le_n].
  - split; simpl; eauto.
Qed.

Lemma timer_inv_step (cfg : Config) (w : World) (ev : Env * Event) :
  timer_inv w -> timer_inv (step cfg w ev).
Proof.
  intros Hinv. unfold step.
  destruct ev as [env e].
  assert (Hk : (exists d, e = DaytimeSwitch d) \/ keeps_daytime (env, e)).
  { destruct e; try (right; exact I). left. eauto. }
  destruct Hk as [[d ->] | Hk].
  - exact Hinv.
  - apply (pres_dispatch timer_inv) with (ev := (env, e)); try assumption.
    + intros l w0 H. exact H.
    + intros c w0 H. exact H.
    + intros h w0. apply timer_inv_cancel.
    + apply timer_inv_refresh.
Qed.

Lemma timer_inv_run (cfg : Config) (evs : list (Env * Event)) :
  forall w, timer_inv w -> timer_inv (run cfg evs w).
Proof.
  unfold run. induction evs as [|ev rest IH]; intros w Hw; simpl.
  - exact Hw.
  - apply IH, timer_inv_step, Hw.
Qed.

Lemma timer_inv_boot (cfg : Config) (first : option Daytime) :
  timer_inv (boot cfg first).
Proof.
  unfold boot.
  apply (pres_initialize_listeners timer_inv).
  - apply timer_inv_refresh.
  - split; [left; reflexivity | apply Nat.le_0_l].
Qed.

(** C1: after [initialize] and any sequence of callbacks whatsoever
    (motion detected with or without a cleared in between, motion pulses,
    timers that fire, daytime switches), at most one auto-off timer is
    pending, it is the one [_handle] names, and at no moment were two
    timers pending together: each timer was scheduled when none was left. *)
Theorem C1_at_most_one_timer
        (cfg : Config) (first : option Daytime) (evs : list (Env * Event)) :
  let w := run cfg evs (boot cfg first) in
  (List.length (timers w) <= 1)%nat
  /\ (peak w <= 1)%nat
  /\ (forall h d, In (h, d) (timers w) -> _handle w = Some h).
Proof.
  intros w.
  destruct (timer_inv_run cfg evs _ (timer_inv_boot cfg first))
    as [[Hts | (h0 & d0 & Hts & Hh)] Hpeak]; fold w in Hts, Hpeak |- *;
    rewrite Hts; simpl; repeat split; auto; try contradiction.
  intros h d [H | []]. injection H as <- <-. fold w in Hh. exact Hh.
Qed.

Example detected_twice :
  let w := run Bath.cfg
               [(Bath.env, MotionPulse "binary_sensor.motion_sensor_bath");
                (Bath.env, Detected "binary_sensor.motion_sensor_bath");
                (Bath.env, MotionPulse "binary_sensor.motion_sensor_bath");
                (Bath.env, MotionPulse "binary_sensor.motion_sensor_bath")]
               Bath.start in
  timers w = [(2%nat, 150)] /\ _handle w = Some 2%nat /\ peak w = 1%nat.
Proof. vm_compute. repeat split; reflexivity. Qed.

(** ** A delay of zero *)

Lemma zero_delay_refresh (a : Daytime) (n : nat) (ts : list (nat * Z)) (w : World) :
  delay a = 0 ->
  active w = Some a /\ next_handle w = n /\ incl (timers w) ts ->
  let w' := snd (refresh_timer w) in
  active w' = Some a /\ next_handle w' = n /\ incl (timers w') ts.
Proof.
  intros Hd (Ha & Hn & Hts).
  unfold refresh_timer, bind, gets, cancel_timer, modify, the_active.
  simpl. rewrite Ha, Hd. simpl. repeat split; try assumption.
  intros t Ht. apply Hts. apply filter_In in Ht. tauto.
Qed.

(** C4: while the active profile has a delay of 0 and stays active, no
    callback (motion pulse, motion detected, motion cleared, a timer that
    fires) schedules a timer: the host hands out no new handle and the
    pending timers can only go away. *)
Theorem C4_zero_delay_never_schedules
        (cfg : Config) (a : Daytime) (w : World) (evs : list (Env * Event)) :
  active w = Some a ->
  delay a = 0 ->
  Forall keeps_daytime evs ->
  let w' := run cfg evs w in
  next_handle w' = next_handle w
  /\ incl (timers w') (timers w)
  /\ active w' = Some a.
Proof.
  intros Ha Hd Hevs w'.
  assert (H : active w' = Some a /\ next_handle w' = next_handle w
              /\ incl (timers w') (timers w)).
  { apply (pres_run (fun x => active x = Some a /\ next_handle x = next_handle w
                              /\ incl (timers x) (timers w)))
      with (cfg := cfg) (evs := evs); try assumption.
    - intros l x H. exact H.
    - intros c x H. exact H.
    - intros h x (H1 & H2 & H3). repeat split; try assumption.
      simpl. intros t Ht. apply H3. apply filter_In in Ht. tauto.
    - intros x. apply zero_delay_refresh, Hd.
    - repeat split; try assumption. apply incl_refl. }
  tauto.
Qed.

Lemma C4_zero_delay_never_schedules_witness :
  let evs := [(Bath.env, MotionPulse Bath.sensor); (Bath.lit, Detected Bath.sensor);
              (Bath.lit, Cleared); (Bath.lit, TimerFired 0);
              (Bath.lit, MotionPulse Bath.sensor)] in
  let w' := run Bath.cfg evs (blank (Some Bath.always)) in
  next_handle w' = next_handle (blank (Some Bath.always))
  /\ incl (timers w') (timers (blank (Some Bath.always)))
  /\ active w' = Some Bath.always.
Proof.
  intros evs.
  apply (C4_zero_delay_never_schedules Bath.cfg Bath.always
                                       (blank (Some Bath.always)) evs).
  - reflexivity.
  - reflexivity.
  - repeat constructor.
Defined.

Example occupied_reached :
  step Bath.cfg Bath.start (Bath.env, MotionPulse Bath.sensor) = Bath.occupied.
Proof. reflexivity. Qed.

Example timer_fires_and_light_fades :
  dispatch Bath.cfg Bath.lit (TimerFired 0) Bath.occupied
  = (Ok tt, note LogOff
              (emit (CreateFade "light.bath" "down" 0 (inject_Z 3)) Bath.fired)).
Proof. reflexivity. Qed.

(** ** A threshold of zero *)


Example zero_illuminance_threshold_lets_light_on :
  reaches Bath.env 0 "sensor.illumination_bath" = true
  /\ lights_on (with_thresholds_illuminance (Some 0%Q) Bath.cfg) Bath.env Bath.start
     = (Ok tt, note (LogBrightnessOn 100)
                 (emit (CreateFade "light.bath" "up" 100 (inject_Z 3)) Bath.start)).
Proof. split; reflexivity. Qed.

(** ** The humidity blocker *)

Lemma sensors_over_filter (env : Env) (th : Q) (sensors : list string) :
  Forall (fun s => unparsable env s = false) sensors ->
  sensors_over env th sensors = Ok (filter (reaches env th) sensors).
Proof.
  induction 1 as [|s rest Hs _ IH]; simpl; [reflexivity|].
  unfold unparsable, reaches, reading in *.
  destruct (Py.float (get_state env s None)) as [r|e]; [|discriminate].
  simpl. rewrite IH. reflexivity.
Qed.

Lemma sensors_over_unparsable (env : Env) (th : Q) (sensors : list string) :
  Exists (fun s => unparsable env s = true) sensors ->
  exists e, sensors_over env th sensors = Err e.
Proof.
  induction 1 as [s rest Hs | s rest _ [e IH]]; simpl;
    unfold unparsable, reading in *;
    destruct (Py.float (get_state env s None)) as [r|e']; simpl;
    try discriminate; eauto.
  rewrite IH. simpl. eauto.
Qed.

Lemma last_cons {A} (l : list A) :
  forall a d, last (a :: l) d = last l a.
Proof.
  induction l as [|b l IH]; intros a d; [reflexivity|].
  change (last (a :: b :: l) d) with (last (b :: l) d).
  rewrite (IH b d), (IH b a). reflexivity.
Qed.

Lemma last_some_default {A} (l : list A) :
  forall d : option A,
    last (map Some l) d = match last (map Some l) None with
                          | Some y => Some y
                          | None => d
                          end.
Proof.
  induction l as [|a l IH]; intros d; [reflexivity|].
  simpl map. rewrite !last_cons. rewrite (IH (Some a)).
  destruct (last (map Some l) None); reflexivity.
Qed.

Lemma find_app {A} (p : A -> bool) (l1 l2 : list A) :
  find p (l1 ++ l2) = match find p l1 with
                      | Some y => Some y
                      | None => find p l2
                      end.
Proof.
  induction l1 as [|x l1 IH]; simpl; [reflexivity|].
  destruct (p x); [reflexivity | exact IH].
Qed.

(** Popping the list of matches gives the match that comes last. *)
Lemma pop_is_last_match (p : string -> bool) (l : list string) :
  pop_or_none (filter p l) = find p (rev l).
Proof.
  unfold pop_or_none. induction l as [|x l IH]; [reflexivity|].
  simpl rev. rewrite find_app, <- IH. simpl.
  destruct (p x).
  - simpl map. rewrite last_cons. apply last_some_default.
  - destruct (last (map Some (filter p l)) None); reflexivity.
Qed.

Lemma humidity_blocker_last (cfg : Config) (env : Env) (th : Q) :
  thresholds_humidity cfg = Some th ->
  ~ (th == 0)%Q ->
  Forall (fun s => unparsable env s = false) (sensors_humidity cfg) ->
  humidity_blocker cfg env
  = Ok (find (reaches env th) (rev (sensors_humidity cfg))).
Proof.
  intros Hth Hnz Hparse. unfold humidity_blocker. rewrite Hth. simpl.
  destruct (Qeq_bool th 0) eqn:E; [apply Qeq_bool_eq in E; contradiction|].
  simpl. rewrite (sensors_over_filter env th _ Hparse). simpl.
  rewrite pop_is_last_match. reflexivity.
Qed.

(** C8, as amended: with a humidity threshold that is set and not zero
    and humidity readings that all parse, the blocker the turn-off path
    computes is the last humidity sensor, in the configured order, whose
    reading is at least the threshold, and none when no reading reaches
    it. *)
Theorem C8_humidity_blocker_is_last_match (cfg : Config) (env : Env) (th : Q) :
  thresholds_humidity cfg = Some th ->
  ~ (th == 0)%Q ->
  Forall (fun s => unparsable env s = false) (sensors_humidity cfg) ->
  humidity_blocker cfg env
  = Ok (find (reaches env th) (rev (sensors_humidity cfg))).
Proof. exact (humidity_blocker_last cfg env th). Qed.

Lemma C8_humidity_blocker_is_last_match_witness :
  humidity_blocker Bath.cfg Bath.steamy
  = Ok (find (reaches Bath.steamy (inject_Z 60)) (rev (sensors_humidity Bath.cfg))).
Proof.
  apply (C8_humidity_blocker_is_last_match Bath.cfg Bath.steamy (inject_Z 60)).
  - reflexivity.
  - discriminate.
  - repeat constructor.
Defined.

(** C8, as the specification words it, fails when two sensors are above
    the threshold: the first one in the configured order is the shower
    sensor, the blocker is the bath sensor. *)
Lemma C8_counterexample :
  sensors_humidity Bath.cfg = ["sensor.humidity_shower"; "sensor.humidity_bath"]
  /\ find (reaches Bath.steamy (inject_Z 60)) (sensors_humidity Bath.cfg)
     = Some "sensor.humidity_shower"
  /\ humidity_blocker Bath.cfg Bath.steamy = Ok (Some "sensor.humidity_bath")
  /\ humidity_blocker Bath.cfg Bath.steamy
     <> Ok (find (reaches Bath.steamy (inject_Z 60)) (sensors_humidity Bath.cfg)).
Proof. repeat split; try reflexivity. discriminate. Qed.

Example dry_bathroom_has_no_blocker :
  humidity_blocker Bath.cfg Bath.lit = Ok None.
Proof. reflexivity. Qed.

(** C6 at its failing input: the humidity threshold is 60, the shower
    sensor reads 48.5 and the bath sensor is unavailable.  The timer
    fires with the light on: the turn-off handler ends in [ValueError]
    before it sends anything, the light is not faded out and no timer is
    pending afterwards. *)
Theorem C6_unparsable_humidity_aborts_turn_off :
  reading Bath.offline "sensor.humidity_bath" = Err ValueError
  /\ dispatch Bath.cfg Bath.offline (TimerFired 0) Bath.occupied
     = (Err ValueError, Bath.fired)
  /\ cmds Bath.fired = cmds Bath.occupied
  /\ timers Bath.fired = [].
Proof. repeat split; reflexivity. Qed.

(** The same holds for any unreadable humidity sensor, as soon as the
    blocker is in force and no disable rule fires. *)
Lemma lights_off_unparsable (cfg : Config) (env : Env) (w : World) (th : Q) :
  not_disabled cfg env ->
  thresholds_humidity cfg = Some th ->
  ~ (th == 0)%Q ->
  Exists (fun s => unparsable env s = true) (sensors_humidity cfg) ->
  exists e, lights_off cfg env w = (Err e, w).
Proof.
  intros Hnd Hth Hnz Hex. unfold lights_off, bind.
  rewrite (check_disabled_clear cfg env w Hnd).
  unfold lift, humidity_blocker. rewrite Hth. simpl.
  destruct (Qeq_bool th 0) eqn:E; [apply Qeq_bool_eq in E; contradiction|].
  simpl. destruct (sensors_over_unparsable env th _ Hex) as [e ->].
  simpl. eauto.
Qed.

(** ** The illuminance blocker *)

(** Nothing but log lines separates [w'] from [w]. *)
Lemma illuminance_loop_logs_only (env : Env) (th : Q) (sensors : list string) :
  forall blocker w,
  exists L, snd (illuminance_loop env th sensors blocker w) = extend [] L w.
Proof.
  induction sensors as [|s rest IH]; intros blocker w; simpl.
  - exists []. destruct w; unfold extend; simpl. rewrite !app_nil_r. reflexivity.
  - destruct (Py.float (get_state env s None)) as [r|[]]; try apply IH;
      try (exists []; destruct w; unfold extend, raise; simpl;
           rewrite !app_nil_r; reflexivity).
    exists [LogParseError s]. destruct w; unfold extend; simpl.
    rewrite app_nil_r. reflexivity.
Qed.

Lemma illuminance_loop_blocker (env : Env) (th : Q) (sensors : list string) :
  forall blocker w b,
    blocker <> []
    \/ Exists (fun s => reaches env th s = true \/ unparsable env s = true) sensors ->
    fst (illuminance_loop env th sensors blocker w) = Ok (Some b) ->
    b <> [].
Proof.
  induction sensors as [|s rest IH]; intros blocker w b Hex; simpl.
  - intros H. injection H as <-. destruct Hex as [H | H]; [exact H | inversion H].
  - assert (Hs : reaches env th s = true \/ unparsable env s = true
                 \/ blocker <> [] \/
                 Exists (fun s => reaches env th s = true \/ unparsable env s = true) rest).
    { destruct Hex as [H | H]; [tauto | inversion H; tauto]. }
    clear Hex. unfold reaches, unparsable, reading in Hs.
    destruct (Py.float (get_state env s None)) as [r|[]]; try discriminate.
    apply IH. destruct Hs as [H | [H | [H | H]]]; try discriminate.
    + rewrite H. left. destruct blocker; discriminate.
    + left. destruct (Py.ge r th); [destruct blocker; discriminate | exact H].
    + right. exact H.
Qed.

Lemma lights_on_blocked (cfg : Config) (env : Env) (w : World) (th : Q) :
  thresholds_illuminance cfg = Some th ->
  ~ (th == 0)%Q ->
  Exists (fun s => reaches env th s = true \/ unparsable env s = true)
         (sensors_illuminance cfg) ->
  exists L, snd (lights_on cfg env w) = extend [] L w.
Proof.
  intros Hth Hnz Hex. unfold lights_on. rewrite Hth. simpl.
  destruct (Qeq_bool th 0) eqn:E; [apply Qeq_bool_eq in E; contradiction|].
  simpl. unfold bind at 1 2.
  destruct (illuminance_loop_logs_only env th (sensors_illuminance cfg) [] w)
    as [L HL].
  pose proof (illuminance_loop_blocker env th (sensors_illuminance cfg) [] w) as Hb.
  destruct (illuminance_loop env th (sensors_illuminance cfg) [] w)
    as [[[[|s bs]|]|e] w1]; simpl in HL, Hb; subst w1.
  - exfalso. apply (Hb [] (or_intror Hex) eq_refl). reflexivity.
  - exists (L ++ [LogBrightEnough (s :: bs)]). unfold extend. simpl.
    rewrite app_assoc. reflexivity.
  - exists L. reflexivity.
  - exists L. reflexivity.
Qed.

(** C7, as amended: with an illuminance threshold that is set and not
    zero, as soon as one configured illuminance sensor reads at least the
    threshold (an infinite reading included) or has a reading that
    [float] refuses, the turn-on path sends no command and launches no
    fade, and leaves the active profile, the timer handle and the pending
    timers as they were.  A reading spelled [nan] is neither: [float]
    takes it and no comparison holds of it. *)
Theorem C7_illuminance_block_aborts_turn_on
        (cfg : Config) (env : Env) (w : World) (th : Q) :
  thresholds_illuminance cfg = Some th ->
  ~ (th == 0)%Q ->
  Exists (fun s => reaches env th s = true \/ unparsable env s = true)
         (sensors_illuminance cfg) ->
  let w' := snd (lights_on cfg env w) in
  cmds w' = cmds w /\ active w' = active w
  /\ _handle w' = _handle w /\ timers w' = timers w.
Proof.
  intros Hth Hnz Hex w'.
  destruct (lights_on_blocked cfg env w th Hth Hnz Hex) as [L HL].
  subst w'. rewrite HL. simpl. rewrite app_nil_r. repeat split; reflexivity.
Qed.

Lemma C7_illuminance_block_aborts_turn_on_witness :
  let env := Bath.having "sensor.illumination_bath" (PStr "250") Bath.env in
  let w' := snd (lights_on Bath.cfg env Bath.start) in
  cmds w' = cmds Bath.start /\ active w' = active Bath.start
  /\ _handle w' = _handle Bath.start /\ timers w' = timers Bath.start.
Proof.
  intros env.
  apply (C7_illuminance_block_aborts_turn_on Bath.cfg env Bath.start (inject_Z 40)).
  - reflexivity.
  - discriminate.
  - constructor. left. reflexivity.
Defined.

Example unreadable_illuminance_keeps_light_off :
  lights_on Bath.cfg (Bath.having "sensor.illumination_bath" (PStr "unknown") Bath.env)
            Bath.start
  = (Ok tt, note (LogParseError "sensor.illumination_bath") Bath.start).
Proof. reflexivity. Qed.

(** A reading spelled [nan] is a float, and no float comparison holds of
    it: the sensor does not block and the light is faded in. *)
Example nan_illuminance_lets_light_on :
  lights_on Bath.cfg (Bath.having "sensor.illumination_bath" (PStr "nan") Bath.env)
            Bath.start
  = (Ok tt, extend [CreateFade "light.bath" "up" 100 (inject_Z 3)]
                   [LogBrightnessOn 100] Bath.start).
Proof. reflexivity. Qed.

Example infinite_illuminance_keeps_light_off :
  lights_on Bath.cfg (Bath.having "sensor.illumination_bath" (PStr "inf") Bath.env)
            Bath.start
  = (Ok tt, note (LogBrightEnough ["sensor.illumination_bath"]) Bath.start).
Proof. reflexivity. Qed.

(** C7, as the specification words it, fails for a threshold of 0: the
    sensor reads 12, which is at least 0, and the light is faded in. *)
Lemma C7_counterexample :
  let cfg := with_thresholds_illuminance (Some 0%Q) Bath.cfg in
  thresholds_illuminance cfg = Some 0%Q
  /\ In "sensor.illumination_bath" (sensors_illuminance cfg)
  /\ reaches Bath.env 0 "sensor.illumination_bath" = true
  /\ cmds (snd (lights_on cfg Bath.env Bath.start))
     = [CreateFade "light.bath" "up" 100 (inject_Z 3)]
  /\ cmds (snd (lights_on cfg Bath.env Bath.start)) <> cmds Bath.start.
Proof.
  repeat split; try reflexivity.
  - left. reflexivity.
  - discriminate.
Qed.

(** ** The turn-off path under a humidity blocker *)

Lemma refresh_timer_refreshed (a : Daytime) (w : World) :
  active w = Some a -> refresh_timer w = (Ok tt, refreshed a w).
Proof.
  intros Ha.
  unfold refresh_timer, refreshed, bind, gets, cancel_timer, modify,
    the_active, run_in, without.
  destruct w as [act h ts n pk cs ls]. simpl in *. subst act.
  destruct (delay a =? 0); reflexivity.
Qed.

Lemma exists_find {A} (p : A -> bool) (l : list A) :
  Exists (fun x => p x = true) l -> exists b, find p l = Some b.
Proof.
  induction 1 as [x l Hx | x l _ [b IH]]; simpl.
  - rewrite Hx. eauto.
  - destruct (p x); eauto.
Qed.

Lemma lights_off_blocked (cfg : Config) (env : Env) (w : World)
      (a : Daytime) (th : Q) :
  not_disabled cfg env ->
  thresholds_humidity cfg = Some th ->
  ~ (th == 0)%Q ->
  Forall (fun s => unparsable env s = false) (sensors_humidity cfg) ->
  Forall (fun s => s <> EmptyString) (sensors_humidity cfg) ->
  Exists (fun s => reaches env th s = true) (sensors_humidity cfg) ->
  active w = Some a ->
  exists b r,
    find (reaches env th) (rev (sensors_humidity cfg)) = Some b
    /\ lights_off cfg env w = (Ok tt, note (LogHumid b r) (refreshed a w)).
Proof.
  intros Hnd Hth Hnz Hparse Hnames Hex Ha.
  assert (Hrev : Exists (fun s => reaches env th s = true)
                        (rev (sensors_humidity cfg))).
  { apply Exists_exists in Hex. destruct Hex as (s & Hin & Hs).
    apply Exists_exists. exists s. split; [rewrite <- in_rev|]; assumption. }
  destruct (exists_find _ _ Hrev) as [b Hb].
  destruct (find_some _ _ Hb) as [Hin Hreach].
  apply in_rev in Hin.
  assert (Hname : (b =? EmptyString)%string = false).
  { apply String.eqb_neq. rewrite Forall_forall in Hnames. auto. }
  unfold reaches, reading in Hreach.
  destruct (Py.float (get_state env b None)) as [r|] eqn:Hr; [|discriminate].
  exists b, r. split; [exact Hb|].
  unfold lights_off, bind.
  rewrite (check_disabled_clear cfg env w Hnd).
  unfold lift. rewrite (humidity_blocker_last cfg env th Hth Hnz Hparse), Hb.
  unfold blocker_truthy. rewrite Hname. cbn [negb].
  rewrite (refresh_timer_refreshed a w Ha).
  unfold the_active.
  assert (Ha' : active (refreshed a w) = Some a).
  { unfold refreshed. destruct (delay a =? 0); exact Ha. }
  rewrite Ha', Hr. reflexivity.
Qed.

(** C5, as amended: when the turn-off path runs, no disable rule fires,
    the humidity threshold is set and not zero, every humidity reading
    parses and one of them is at least the threshold, then nothing is sent
    to any light and the timer is refreshed: the timer the handle names is
    cancelled and, when the active profile's delay is not 0, a new timer
    with that delay is pending and the handle names it; with a delay of 0
    no timer is scheduled. *)
Theorem C5_humidity_block_refreshes_timer
        (cfg : Config) (env : Env) (w : World) (a : Daytime) (th : Q) :
  not_disabled cfg env ->
  thresholds_humidity cfg = Some th ->
  ~ (th == 0)%Q ->
  Forall (fun s => unparsable env s = false) (sensors_humidity cfg) ->
  Forall (fun s => s <> EmptyString) (sensors_humidity cfg) ->
  Exists (fun s => reaches env th s = true) (sensors_humidity cfg) ->
  active w = Some a ->
  let w' := snd (lights_off cfg env w) in
  fst (lights_off cfg env w) = Ok tt
  /\ cmds w' = cmds w
  /\ timers w'
     = without (_handle w) (timers w)
       ++ (if delay a =? 0 then [] else [(next_handle w, delay a)])
  /\ _handle w' = (if delay a =? 0 then _handle w else Some (next_handle w)).
Proof.
  intros Hnd Hth Hnz Hparse Hnames Hex Ha w'.
  destruct (lights_off_blocked cfg env w a th Hnd Hth Hnz Hparse Hnames Hex Ha)
    as (b & r & _ & Hoff).
  subst w'. rewrite Hoff. unfold refreshed.
  destruct (delay a =? 0); simpl; rewrite ?app_nil_r; repeat split; reflexivity.
Qed.

Lemma C5_humidity_block_refreshes_timer_witness :
  let w' := snd (lights_off Bath.cfg Bath.steamy Bath.fired) in
  fst (lights_off Bath.cfg Bath.steamy Bath.fired) = Ok tt
  /\ cmds w' = cmds Bath.fired
  /\ timers w'
     = without (_handle Bath.fired) (timers Bath.fired)
       ++ (if delay Bath.day =? 0 then []
           else [(next_handle Bath.fired, delay Bath.day)])
  /\ _handle w' = (if delay Bath.day =? 0 then _handle Bath.fired
                   else Some (next_handle Bath.fired)).
Proof.
  apply (C5_humidity_block_refreshes_timer Bath.cfg Bath.steamy Bath.fired
                                           Bath.day (inject_Z 60)).
  - repeat constructor.
  - reflexivity.
  - discriminate.
  - repeat constructor.
  - repeat constructor; discriminate.
  - constructor. reflexivity.
  - reflexivity.
Defined.

Example steam_keeps_the_light_on :
  dispatch Bath.cfg Bath.steamy (TimerFired 0) Bath.occupied
  = (Ok tt,
     note (LogHumid "sensor.humidity_bath" (Finite (Qmake 655 10)))
          (mkWorld (Some Bath.day) (Some 1%nat) [(1%nat, 150)] 2%nat 1%nat
                   (cmds Bath.fired) (logs Bath.fired))).
Proof. reflexivity. Qed.

(** C5, as the specification words it, fails when a disable rule fires:
    the timer has fired, both humidity sensors read above the threshold
    of 60, the guard switch is on.  The turn-off path returns at its
    first check and no timer is pending afterwards. *)
Lemma C5_counterexample :
  let env := Bath.having "switch.guard" (PStr "on") Bath.steamy in
  thresholds_humidity Bath.cfg = Some (inject_Z 60)
  /\ reaches env (inject_Z 60) "sensor.humidity_shower" = true
  /\ dispatch Bath.cfg env (TimerFired 0) Bath.occupied
     = (Ok tt, note (LogDisabled "switch.guard, on") Bath.fired)
  /\ timers (snd (dispatch Bath.cfg env (TimerFired 0) Bath.occupied)) = []
  /\ ~ (exists h, In (h, delay Bath.day)
                     (timers (snd (dispatch Bath.cfg env (TimerFired 0)
                                            Bath.occupied)))).
Proof.
  repeat split; try reflexivity.
  intros [h H]. exact H.
Qed.

(** With a humidity threshold of 0 the readings are not looked at and
    the light is faded out. *)
Example steam_under_zero_threshold :
  dispatch (with_thresholds_humidity (Some 0%Q) Bath.cfg) Bath.steamy
           (TimerFired 0) Bath.occupied
  = (Ok tt, note LogOff
              (emit (CreateFade "light.bath" "down" 0 (inject_Z 3)) Bath.fired)).
Proof. reflexivity. Qed.

(** Under a profile with a delay of 0 the refresh schedules nothing. *)
Example steam_under_zero_delay :
  lights_off Bath.cfg Bath.steamy
             (mkWorld (Some Bath.always) (Some 0%nat) [] 1%nat 1%nat [] [])
  = (Ok tt, note (LogHumid "sensor.humidity_bath" (Finite (Qmake 655 10)))
              (mkWorld (Some Bath.always) (Some 0%nat) [] 1%nat 1%nat [] [])).
Proof. reflexivity. Qed.

(** ** Motion detected against motion pulse *)

Lemma extend_nil (w : World) : extend [] [] w = w.
Proof. destruct w. unfold extend. simpl. rewrite !app_nil_r. reflexivity. Qed.

Lemma extend_extend (C1 C2 : list Cmd) (L1 L2 : list LogMsg) (w : World) :
  extend C2 L2 (extend C1 L1 w) = extend (C1 ++ C2) (L1 ++ L2) w.
Proof. unfold extend. simpl. rewrite !app_assoc. reflexivity. Qed.

Lemma note_extend (l : LogMsg) (w : World) : note l w = extend [] [l] w.
Proof. unfold note, extend. rewrite app_nil_r. reflexivity. Qed.

Lemma emit_extend (c : Cmd) (w : World) : emit c w = extend [c] [] w.
Proof. unfold emit, extend. rewrite app_nil_r. reflexivity. Qed.

Section Writes.

Variable a : Daytime.

Lemma writes_ret {A} (x : A) : writes a (ret x).
Proof. exists (Ok x), [], []. intros w _. rewrite extend_nil. reflexivity. Qed.

Lemma writes_raise {A} (e : exn) : writes a (@raise A e).
Proof. exists (Err e), [], []. intros w _. rewrite extend_nil. reflexivity. Qed.

Lemma writes_the_active : writes a the_active.
Proof.
  exists (Ok a), [], []. intros w Hw. rewrite extend_nil.
  unfold the_active. rewrite Hw. reflexivity.
Qed.

Lemma writes_log (l : LogMsg) : writes a (log l).
Proof.
  exists (Ok tt), [], [l]. intros w _. rewrite <- note_extend. reflexivity.
Qed.

Lemma writes_emit (c : Cmd) : writes a (modify (emit c)).
Proof.
  exists (Ok tt), [c], []. intros w _. rewrite <- emit_extend. reflexivity.
Qed.

Lemma writes_bind {A B} (m : M A) (k : A -> M B) :
  writes a m -> (forall x, writes a (k x)) -> writes a (bind m k).
Proof.
  intros (r & C & L & Hm) Hk. destruct r as [x|e].
  - destruct (Hk x) as (r' & C' & L' & Hkx).
    exists r', (C ++ C'), (L ++ L'). intros w Hw. unfold bind.
    rewrite (Hm w Hw), Hkx by exact Hw. rewrite extend_extend. reflexivity.
  - exists (Err e), C, L. intros w Hw. unfold bind.
    rewrite (Hm w Hw). reflexivity.
Qed.

Lemma writes_for_each {A} (xs : list A) (body : A -> M unit) :
  (forall x, writes a (body x)) -> writes a (for_each xs body).
Proof.
  intros Hbody. induction xs as [|x rest IH]; simpl.
  - apply writes_ret.
  - apply writes_bind; [apply Hbody | intros _; exact IH].
Qed.

Lemma writes_illuminance_loop (env : Env) (th : Q) (sensors : list string) :
  forall blocker, writes a (illuminance_loop env th sensors blocker).
Proof.
  induction sensors as [|s rest IH]; intros blocker; simpl.
  - apply writes_ret.
  - destruct (Py.float (get_state env s None)) as [r|[]];
      try apply IH; try apply writes_raise.
    apply writes_bind; [apply writes_log | intros _; apply writes_ret].
Qed.

Ltac writes_step :=
  first
    [ apply writes_ret | apply writes_raise | apply writes_the_active
    | apply writes_log | apply writes_emit | apply writes_illuminance_loop
    | apply writes_for_each; intros ?
    | apply writes_bind; [|intros ?]
    | match goal with
      | |- writes _ (if ?c then _ else _) => destruct c
      | |- writes _ (match ?x with _ => _ end) => destruct x
      end ].

Lemma writes_with_active {B} (k : Daytime -> M B) :
  writes a (k a) -> writes a (bind the_active k).
Proof.
  intros (r & C & L & H). exists r, C, L. intros w Hw.
  unfold bind, the_active. rewrite Hw. apply H, Hw.
Qed.

(** With a light setting other than 0, [lights_on] never reaches the
    turn-off path, hence never the timer. *)
Lemma writes_lights_on (cfg : Config) (env : Env) :
  as_int (light_setting a) <> Some 0 -> writes a (lights_on cfg env).
Proof.
  intros Hset. unfold lights_on, turn_on_entity, call_service, create_task.
  apply writes_bind; [repeat writes_step|].
  intros [|]; [apply writes_ret|].
  apply writes_with_active.
  destruct (light_setting a) as [|b|z|q|s]; simpl as_int in *; cbv iota.
  - apply writes_raise.
  - destruct b; [|exfalso; apply Hset; reflexivity].
    cbn [Z.eqb]. repeat writes_step.
  - destruct (z =? 0) eqn:Hz.
    + exfalso. apply Hset. f_equal. apply Z.eqb_eq, Hz.
    + repeat writes_step.
  - apply writes_raise.
  - repeat writes_step.
Qed.

End Writes.

Lemma without_none (ts : list (nat * Z)) : without None ts = ts.
Proof.
  unfold without. induction ts as [|t ts IH]; [reflexivity|].
  cbn [filter is_handle negb]. f_equal. exact IH.
Qed.

(** What [motion_event] does when no disable rule fires and the light
    setting is not 0: it sends [C] and logs [L]; called for a motion pulse
    it then refreshes the timer, called for a detected state it does not. *)
Lemma motion_event_shape (cfg : Config) (env : Env) (entity : string) (a : Daytime) :
  not_disabled cfg env ->
  as_int (light_setting a) <> Some 0 ->
  exists r C, forall event, exists L, forall w,
    active w = Some a ->
    motion_event cfg env event entity w
    = if (event =? "state_changed_detection")%string
      then (r, extend C L w)
      else match r with
           | Ok _ => (Ok tt, refreshed a (extend C L w))
           | Err e => (Err e, extend C L w)
           end.
Proof.
  intros Hnd Hset.
  destruct (writes_lights_on a cfg env Hset) as (r0 & C0 & L0 & Hon).
  destruct (any_light_on cfg env) eqn:Hany.
  - exists (Ok tt), []. intros event.
    exists [LogReceived event entity; LogAlreadyOn]. intros w Hw.
    unfold motion_event, bind, log, modify.
    rewrite (check_disabled_clear cfg env _ Hnd), Hany. cbn [negb].
    replace (note LogAlreadyOn (note (LogReceived event entity) w))
      with (extend [] [LogReceived event entity; LogAlreadyOn] w)
      by (unfold note, extend; simpl; rewrite app_nil_r, <- app_assoc; reflexivity).
    destruct (event =? "state_changed_detection")%string; cbn [negb].
    + reflexivity.
    + apply refresh_timer_refreshed. exact Hw.
  - exists r0, C0. intros event.
    exists (LogReceived event entity :: L0). intros w Hw.
    unfold motion_event, bind, log, modify.
    rewrite (check_disabled_clear cfg env _ Hnd), Hany. cbn [negb].
    rewrite (Hon (note (LogReceived event entity) w)) by exact Hw.
    rewrite note_extend, extend_extend. cbn [app].
    destruct r0 as [[]|e].
    + destruct (event =? "state_changed_detection")%string; cbn [negb].
      * reflexivity.
      * apply refresh_timer_refreshed. exact Hw.
    + destruct (event =? "state_changed_detection")%string; reflexivity.
Qed.

Lemma motion_detected_cancels (cfg : Config) (env : Env) (entity : string) (w : World) :
  motion_detected cfg env entity w
  = motion_event cfg env "state_changed_detection" entity
                 (set_timers (without (_handle w) (timers w)) w).
Proof.
  unfold motion_detected, bind, gets.
  destruct w as [act [h|] ts n pk cs ls]; cbn [_handle timers].
  - reflexivity.
  - rewrite without_none. reflexivity.
Qed.

(** C2, as amended: when no disable rule fires (and the profile's light
    setting is not 0), the handler of a continuous sensor's detected state
    cancels the pending timer, sends the commands the motion-pulse handler
    sends, and schedules no timer: it does not refresh.  It is the
    motion-pulse handler that, once the lights are dealt with, always
    refreshes the timer, whether or not a light was already on. *)
Theorem C2_detected_cancels_pulse_refreshes
        (cfg : Config) (env : Env) (entity : string) (w : World) (a : Daytime) :
  not_disabled cfg env ->
  active w = Some a ->
  as_int (light_setting a) <> Some 0 ->
  let wd := snd (motion_detected cfg env entity w) in
  let wp := snd (motion_event cfg env EVENT_MOTION_XIAOMI entity w) in
  timers wd = without (_handle w) (timers w)
  /\ next_handle wd = next_handle w
  /\ cmds wd = cmds wp
  /\ (fst (motion_event cfg env EVENT_MOTION_XIAOMI entity w) = Ok tt ->
      timers wp
      = without (_handle w) (timers w)
        ++ (if delay a =? 0 then [] else [(next_handle w, delay a)])).
Proof.
  intros Hnd Ha Hset wd wp.
  destruct (motion_event_shape cfg env entity a Hnd Hset) as (r & C & Hshape).
  destruct (Hshape "state_changed_detection") as (Ld & Hd).
  destruct (Hshape EVENT_MOTION_XIAOMI) as (Lp & Hp).
  subst wd wp. rewrite motion_detected_cancels.
  rewrite Hd by exact Ha. rewrite Hp by exact Ha.
  change (EVENT_MOTION_XIAOMI =? "state_changed_detection")%string with false.
  change ("state_changed_detection" =? "state_changed_detection")%string with true.
  cbv iota. destruct r as [[]|e]; unfold refreshed;
    destruct (delay a =? 0); simpl; rewrite ?app_nil_r;
    repeat split; try reflexivity; intros H; discriminate H.
Qed.

Lemma C2_detected_cancels_pulse_refreshes_witness :
  let wd := snd (motion_detected Bath.cfg Bath.lit Bath.sensor Bath.occupied) in
  let wp := snd (motion_event Bath.cfg Bath.lit EVENT_MOTION_XIAOMI Bath.sensor
                              Bath.occupied) in
  timers wd = without (_handle Bath.occupied) (timers Bath.occupied)
  /\ next_handle wd = next_handle Bath.occupied
  /\ cmds wd = cmds wp
  /\ (fst (motion_event Bath.cfg Bath.lit EVENT_MOTION_XIAOMI Bath.sensor
                        Bath.occupied) = Ok tt ->
      timers wp
      = without (_handle Bath.occupied) (timers Bath.occupied)
        ++ (if delay Bath.day =? 0 then []
            else [(next_handle Bath.occupied, delay Bath.day)])).
Proof.
  apply (C2_detected_cancels_pulse_refreshes Bath.cfg Bath.lit Bath.sensor
                                             Bath.occupied Bath.day).
  - repeat constructor.
  - reflexivity.
  - discriminate.
Defined.

(** C2, as the specification words it, fails on the first detected state
    in an idle room: no rule fires, the light is faded in as for a motion
    pulse, but no timer is pending afterwards and the host was asked for
    none, whereas the motion pulse leaves the 150 second timer pending. *)
Lemma C2_counterexample :
  not_disabled Bath.cfg Bath.env
  /\ motion_detected Bath.cfg Bath.env Bath.sensor Bath.start
     = (Ok tt,
        mkWorld (Some Bath.day) None [] 0%nat 0%nat
                [CreateFade "light.bath" "up" 100 (inject_Z 3)]
                [LogReceived "state_changed_detection" Bath.sensor;
                 LogBrightnessOn 100])
  /\ timers (snd (motion_detected Bath.cfg Bath.env Bath.sensor Bath.start)) = []
  /\ next_handle (snd (motion_detected Bath.cfg Bath.env Bath.sensor Bath.start))
     = next_handle Bath.start
  /\ timers (snd (motion_event Bath.cfg Bath.env EVENT_MOTION_XIAOMI Bath.sensor
                               Bath.start))
     = [(0%nat, 150)].
Proof. repeat split; try reflexivity. repeat constructor. Qed.

(** The same with the light already on. *)
Example detected_with_light_on :
  motion_detected Bath.cfg Bath.lit Bath.sensor Bath.occupied
  = (Ok tt, note LogAlreadyOn
              (note (LogReceived "state_changed_detection" Bath.sensor)
                    Bath.fired)).
Proof. reflexivity. Qed.

(** ** A visit to the bathroom *)

(** Motion is detected in the dark idle room, then cleared, then the timer
    fires: the light is faded in at once, the timer starts when the motion
    clears and the light is faded out when it fires. *)
Example one_visit :
  let still := Bath.having Bath.sensor (PStr "off") Bath.lit in
  let w1 := step Bath.cfg Bath.start (Bath.env, Detected Bath.sensor) in
  let w2 := step Bath.cfg w1 (still, Cleared) in
  let w3 := step Bath.cfg w2 (still, TimerFired 0) in
  (cmds w1 = [CreateFade "light.bath" "up" 100 (inject_Z 3)] /\ timers w1 = [])
  /\ (cmds w2 = cmds w1 /\ timers w2 = [(0%nat, 150)] /\ _handle w2 = Some 0%nat)
  /\ (cmds w3 = [CreateFade "light.bath" "up" 100 (inject_Z 3);
                 CreateFade "light.bath" "down" 0 (inject_Z 3)]
      /\ timers w3 = []).
Proof. repeat split; reflexivity. Qed.

(** While another motion sensor is still on, a cleared state cancels the
    pending timer instead of starting one. *)
Example cleared_while_motion_goes_on :
  motion_cleared Bath.cfg Bath.lit Bath.occupied = (Ok tt, Bath.fired).
Proof. reflexivity. Qed.

(** * Further properties *)

(** ** The ramp of a fade *)

Lemma range_between (start stop step b : Z) :
  step <> 0 ->
  In b (Py.range start stop step) ->
  Z.min start stop <= b <= Z.max start stop.
Proof.
  intros Hstep Hin. unfold Py.range in Hin.
  apply in_map_iff in Hin. destruct Hin as (i & <- & Hi).
  apply in_seq in Hi. destruct Hi as [_ Hi]. simpl in Hi.
  unfold Py.range_len in Hi.
  destruct (0 <? step) eqn:Hpos.
  - apply Z.ltb_lt in Hpos.
    set (n := (stop - start + step - 1) / step) in *.
    assert (Hn : Z.of_nat i < n) by lia.
    assert (Hdiv : n * step <= stop - start + step - 1).
    { subst n. rewrite Z.mul_comm. apply Z.mul_div_le. lia. }
    nia.
  - apply Z.ltb_ge in Hpos.
    set (n := (start - stop - step - 1) / (- step)) in *.
    assert (Hn : Z.of_nat i < n) by lia.
    assert (Hdiv : n * (- step) <= start - stop - step - 1).
    { subst n. rewrite Z.mul_comm. apply Z.mul_div_le. lia. }
    nia.
Qed.

Lemma fade_is_fade_from
      (env : Env) (entity direction : string) (pct : Z) (duration : Q) :
  brightness_int_or_unknown env entity ->
  fade env entity direction pct duration
  = fade_from entity direction pct duration (initial_brightness env entity).
Proof.
  unfold fade, fade_from, initial_brightness.
  intros [H | [b H]]; rewrite H; simpl Py.float; simpl Py.int;
    destruct (direction =? "up")%string; simpl res_bind;
    destruct (Qeq_bool (duration / (2 # 10)) 0); try reflexivity;
    unfold Py.sub_from, Py.times;
    match goal with
    | |- context [Py.math_ceil ?x] => destruct (Py.math_ceil x) as [step|e]
    end; simpl res_bind; try reflexivity;
    destruct (step =? 0); reflexivity.
Qed.

(** X1: whatever the direction, the target and the duration, every
    brightness a fade sends lies between the brightness it started from
    and the target on the 255 scale: the ramp never leaves that interval
    and never passes the target. *)
Theorem fade_stays_between
        (env : Env) (entity direction : string) (pct : Z) (duration : Q)
        (out : list Cmd) :
  brightness_int_or_unknown env entity ->
  fade env entity direction pct duration = Ok out ->
  forall c, In c out ->
    c = Sleep (2 # 10)
    \/ exists b,
        c = turn_on_brightness entity b
        /\ Z.min (initial_brightness env entity)
                 (Py.trunc (inject_Z pct * 255 / 100))
           <= b
           <= Z.max (initial_brightness env entity)
                    (Py.trunc (inject_Z pct * 255 / 100)).
Proof.
  intros Hb Hfade c Hc.
  rewrite (fade_is_fade_from env entity direction pct duration Hb) in Hfade.
  unfold fade_from in Hfade. cbv zeta in Hfade.
  set (T := Py.trunc (inject_Z pct * 255 / 100)) in *.
  set (i0 := initial_brightness env entity) in *.
  destruct (Qeq_bool (duration / (2 # 10)) 0); [discriminate|].
  match type of Hfade with
  | context [Py.math_ceil ?x] => destruct (Py.math_ceil x) as [step|e]
  end; [|discriminate].
  simpl res_bind in Hfade. injection Hfade as <-.
  apply in_app_iff in Hc. destruct Hc as [Hc | [<- | []]].
  - match type of Hc with
    | context [if ?s =? 0 then _ else _] => destruct (s =? 0) eqn:Hs
    end; [contradiction|].
    apply in_flat_map in Hc. destruct Hc as (b & Hin & [<- | [<- | []]]).
    + right. exists b. split; [reflexivity|].
      apply (range_between _ _ _ b) in Hin; [exact Hin|].
      apply Z.eqb_neq. exact Hs.
    + left. reflexivity.
  - right. exists T. split; [reflexivity | lia].
Qed.

Lemma fade_stays_between_witness :
  turn_on_brightness "light.bath" 1 = Sleep (2 # 10)
  \/ exists b,
      turn_on_brightness "light.bath" 1 = turn_on_brightness "light.bath" b
      /\ Z.min (initial_brightness Bath.env "light.bath")
               (Py.trunc (inject_Z 1 * 255 / 100))
         <= b
         <= Z.max (initial_brightness Bath.env "light.bath")
                  (Py.trunc (inject_Z 1 * 255 / 100)).
Proof.
  apply (fade_stays_between Bath.env "light.bath" "up" 1 (inject_Z 3)
           [turn_on_brightness "light.bath" 0; Sleep (2 # 10);
            turn_on_brightness "light.bath" 1; Sleep (2 # 10);
            turn_on_brightness "light.bath" 2]).
  - left. reflexivity.
  - vm_compute. reflexivity.
  - simpl. tauto.
Defined.

Lemma points_zero (duration : Q) :
  Qeq_bool (duration / (2 # 10)) 0 = true <-> (duration == 0)%Q.
Proof.
  split; intros H.
  - apply Qeq_bool_eq in H.
    rewrite <- (Qmult_div_r duration (2 # 10)) by discriminate.
    rewrite H. reflexivity.
  - apply Qeq_eq_bool. rewrite H. reflexivity.
Qed.

(** X2: with a target percentage between 0 and 100 and an initial
    brightness that is unknown or a number in range, a fade of duration 0
    fails with a division by zero raised before the first command, and a
    fade of a duration between 1e-150 and 1e150 seconds runs to its end. *)
Theorem fade_fails_on_zero_duration
        (env : Env) (entity direction : string) (pct : Z) (duration : Q) :
  0 <= pct <= 100 ->
  brightness_in_range env entity ->
  ((duration == 0)%Q ->
   fade env entity direction pct duration = Err ZeroDivisionError)
  /\ (duration_in_range duration ->
      exists out, fade env entity direction pct duration = Ok out).
Proof.
  intros Hpct Hb. split.
  - intros Hz. destruct Hb as (x & y & Hx & _). unfold start_value in Hx. cbv zeta in Hx.
    unfold fade. cbv zeta. rewrite Hx.
    apply points_zero in Hz. rewrite Hz.
    destruct (direction =? "up")%string; reflexivity.
  - intros Hd.
    destruct (fade_runs env entity direction pct duration Hpct Hd Hb) as [ramp Hr].
    rewrite Hr. eauto.
Qed.

Lemma fade_fails_on_zero_duration_witness :
  fade Bath.env "light.bath" "up" 100 (0 # 1) = Err ZeroDivisionError
  /\ exists out, fade Bath.env "light.bath" "down" 0 (inject_Z 3) = Ok out.
Proof.
  assert (Hb : brightness_in_range Bath.env "light.bath").
  { exists (inject_Z 0), 0. split; [reflexivity|]. split; [reflexivity|].
    split; apply Qle_bool_imp_le; vm_compute; reflexivity. }
  split.
  - apply (proj1 (fade_fails_on_zero_duration
                    Bath.env "light.bath" "up" 100 (0 # 1)
                    ltac:(lia) Hb)).
    reflexivity.
  - apply (proj2 (fade_fails_on_zero_duration
                    Bath.env "light.bath" "down" 0 (inject_Z 3)
                    ltac:(lia) Hb)).
    split; apply Qle_bool_imp_le; vm_compute; reflexivity.
Defined.

Lemma trunc_below_target (pct : Z) :
  0 <= pct ->
  (inject_Z (Py.trunc (inject_Z pct * 255 / 100)) <= inject_Z pct * 255 / 100)%Q.
Proof.
  intros Hpct. rewrite (trunc_target pct Hpct).
  rewrite Zdiv_Qdiv.
  apply Qle_trans with (inject_Z (pct * 255) / inject_Z 100)%Q.
  - apply Qfloor_le.
  - rewrite inject_Z_mult. apply Qle_refl.
Qed.

Lemma range_len_bound (start stop step P : Z) :
  0 < step -> 0 <= P -> stop - start <= step * P ->
  Py.range_len start stop step <= P.
Proof.
  intros Hstep HP Hle. unfold Py.range_len.
  replace (0 <? step) with true by (symmetry; apply Z.ltb_lt; exact Hstep).
  apply Z.max_lub; [exact HP|].
  assert (H : (stop - start + step - 1) / step < P + 1)
    by (apply Z.div_lt_upper_bound; [exact Hstep | lia]).
  lia.
Qed.

(** X3: a fade up from a brightness that is not above the target sends at
    most one intermediate brightness per fifth of a second of its
    duration (rounded up), and then the final one: it never lasts longer
    than asked for. *)
Theorem fade_up_is_not_longer_than_asked
        (env : Env) (entity : string) (pct : Z) (duration : Q) (out : list Cmd) :
  brightness_int_or_unknown env entity ->
  0 <= pct ->
  (0 < duration)%Q ->
  initial_brightness env entity <= pct * 255 / 100 ->
  fade env entity "up" pct duration = Ok out ->
  (List.length out <= 2 * Z.to_nat (Qceiling (duration / (2 # 10))) + 1)%nat.
Proof.
  intros Hb Hpct Hd Hinit Hfade.
  rewrite (fade_is_fade_from env entity "up" pct duration Hb) in Hfade.
  unfold fade_from in Hfade. cbv zeta in Hfade.
  change ("up" =? "up")%string with true in Hfade. cbv iota in Hfade.
  set (i0 := initial_brightness env entity) in *.
  set (target := (inject_Z pct * 255 / 100)%Q) in *.
  set (p := (duration / (2 # 10))%Q) in *.
  assert (Hp : (0 < p)%Q).
  { unfold p. apply Qlt_shift_div_l; [reflexivity|]. rewrite Qmult_0_l. exact Hd. }
  destruct (Qeq_bool p 0); [discriminate|].
  unfold Py.over in Hfade.
  destruct (Py.math_ceil (Py.fit ((target - inject_Z i0) / p))) as [step|e] eqn:Hceil;
    [|discriminate].
  apply math_ceil_fit in Hceil. subst step.
  simpl res_bind in Hfade. injection Hfade as <-.
  set (step := Py.ceil ((target - inject_Z i0) / p)) in *.
  rewrite length_app. simpl List.length.
  apply Nat.add_le_mono_r.
  destruct (step =? 0) eqn:Hs; [simpl; lia|].
  apply Z.eqb_neq in Hs.
  assert (HT : (inject_Z (Py.trunc target) <= target)%Q)
    by (apply trunc_below_target; exact Hpct).
  assert (Hdelta : (0 <= target - inject_Z i0)%Q).
  { unfold Qminus. apply (proj1 (Qle_minus_iff (inject_Z i0) target)).
    apply Qle_trans with (inject_Z (Py.trunc target)); [|exact HT].
    rewrite <- Zle_Qle. unfold target. rewrite (trunc_target pct Hpct). exact Hinit. }
  assert (Hstep : 0 < step).
  { assert (H0 : 0 <= step).
    { change 0 with (Qceiling 0). apply Qceiling_resp_le.
      apply Qle_shift_div_l; [exact Hp|]. rewrite Qmult_0_l. exact Hdelta. }
    lia. }
  assert (HP : (p <= inject_Z (Qceiling p))%Q) by apply Qle_ceiling.
  assert (Hlen : Py.range_len i0 (Py.trunc target) step <= Qceiling p).
  { apply range_len_bound; [exact Hstep| |].
    - change 0 with (Qceiling 0). apply Qceiling_resp_le, Qlt_le_weak, Hp.
    - rewrite Zle_Qle, inject_Z_mult.
      apply Qle_trans with (target - inject_Z i0)%Q.
      + unfold Zminus. rewrite inject_Z_plus, inject_Z_opp.
        apply Qplus_le_compat; [exact HT | apply Qle_refl].
      + apply Qle_trans with (inject_Z step * p)%Q.
        * assert (H := Qle_ceiling ((target - inject_Z i0) / p)).
          apply (Qmult_le_compat_r _ _ p) in H; [|apply Qlt_le_weak, Hp].
          rewrite (Qmult_comm ((target - inject_Z i0) / p) p) in H.
          rewrite Qmult_div_r in H; [exact H|].
          intros E. rewrite E in Hp. discriminate Hp.
        * rewrite !(Qmult_comm (inject_Z step)).
          apply Qmult_le_compat_r; [exact HP|].
          change 0%Q with (inject_Z 0). rewrite <- Zle_Qle. lia. }
  assert (Hflat : forall l : list Z,
             List.length (flat_map
               (fun b => [turn_on_brightness entity b; Sleep (2 # 10)]) l)
             = (2 * List.length l)%nat).
  { induction l as [|x l IH]; simpl; [reflexivity|]. rewrite IH. lia. }
  rewrite Hflat. unfold Py.range. rewrite length_map, length_seq. lia.
Qed.

Lemma fade_up_is_not_longer_than_asked_witness :
  Nat.le
    (List.length
       (flat_map (fun b => [turn_on_brightness "light.bath" b; Sleep (2 # 10)])
                 [0; 17; 34; 51; 68; 85; 102; 119; 136; 153; 170; 187; 204;
                  221; 238]
        ++ [turn_on_brightness "light.bath" 255]))
    (2 * Z.to_nat (Qceiling (inject_Z 3 / (2 # 10))) + 1)%nat.
Proof.
  apply (fade_up_is_not_longer_than_asked Bath.env "light.bath" 100 (inject_Z 3)).
  - left. reflexivity.
  - lia.
  - reflexivity.
  - vm_compute. discriminate.
  - vm_compute. reflexivity.
Defined.

Lemma ceiling_of_small_negative (x : Q) :
  (inject_Z (-1) < x)%Q -> (x <= 0)%Q -> Qceiling x = 0.
Proof.
  intros Hlo Hhi.
  assert (H1 : Qceiling x <= 0)
    by (change 0 with (Qceiling 0); apply Qceiling_resp_le, Hhi).
  assert (H2 : -1 < Qceiling x).
  { rewrite Zlt_Qlt. apply Qlt_le_trans with x; [exact Hlo | apply Qle_ceiling]. }
  lia.
Qed.

(** X4: a fade in any direction other than up, from a brightness that is
    not negative and under the number of steps the duration allows
    (duration / 0.2), has no ramp: the step size rounds to 0 and the only
    command is the final one.  With the default 3 seconds, a light at a
    brightness under 15 is switched in one go. *)
Theorem fade_down_from_dim_light_has_no_ramp
        (env : Env) (entity direction : string) (pct : Z) (duration : Q) :
  brightness_int_or_unknown env entity ->
  (direction =? "up")%string = false ->
  0 <= initial_brightness env entity ->
  (inject_Z (initial_brightness env entity) < duration / (2 # 10))%Q ->
  fade env entity direction pct duration
  = Ok [turn_on_brightness entity (Py.trunc (inject_Z pct * 255 / 100))].
Proof.
  intros Hb Hdir H0 Hlt.
  rewrite (fade_is_fade_from env entity direction pct duration Hb).
  unfold fade_from. cbv zeta. rewrite Hdir.
  set (i0 := initial_brightness env entity) in *.
  set (p := (duration / (2 # 10))%Q) in *.
  assert (Hi : (0 <= inject_Z i0)%Q)
    by (change 0%Q with (inject_Z 0); rewrite <- Zle_Qle; exact H0).
  assert (Hp : (0 < p)%Q) by (apply Qle_lt_trans with (inject_Z i0); assumption).
  destruct (Qeq_bool p 0) eqn:E.
  { apply Qeq_bool_eq in E. rewrite E in Hp. discriminate Hp. }
  assert (Hlo : (inject_Z (-1) < - (1) * inject_Z i0 / p)%Q).
  { apply Qlt_shift_div_l; [exact Hp|].
    setoid_replace (inject_Z (-1) * p)%Q with (- p)%Q by (simpl; ring).
    setoid_replace (- (1) * inject_Z i0)%Q with (- inject_Z i0)%Q by ring.
    apply Qopp_lt_compat. exact Hlt. }
  assert (Hhi : (- (1) * inject_Z i0 / p <= 0)%Q).
  { apply Qle_shift_div_r; [exact Hp|]. rewrite Qmult_0_l.
    setoid_replace (- (1) * inject_Z i0)%Q with (- inject_Z i0)%Q by ring.
    change 0%Q with (- 0)%Q. apply Qopp_le_compat. exact Hi. }
  assert (Hc : Py.ceil (- (1) * inject_Z i0 / p) = 0)
    by (apply ceiling_of_small_negative; assumption).
  unfold Py.over. rewrite fit_finite.
  - simpl res_bind. rewrite Hc. reflexivity.
  - apply Qlt_trans with (inject_Z (-1)); [vm_compute; reflexivity | exact Hlo].
  - apply Qle_lt_trans with 0%Q; [exact Hhi | vm_compute; reflexivity].
Qed.

Lemma fade_down_from_dim_light_has_no_ramp_witness :
  fade (Bath.having_attr "light.bath" "brightness" (PInt 14) Bath.env)
       "light.bath" "down" 0 (inject_Z 3)
  = Ok [turn_on_brightness "light.bath" (Py.trunc (inject_Z 0 * 255 / 100))].
Proof.
  apply (fade_down_from_dim_light_has_no_ramp
           (Bath.having_attr "light.bath" "brightness" (PInt 14) Bath.env)
           "light.bath" "down" 0 (inject_Z 3)).
  - right. exists 14. reflexivity.
  - reflexivity.
  - vm_compute. discriminate.
  - reflexivity.
Defined.

(** ** What the turn-on path sends *)

Lemma for_each_extend {A} (body : A -> M unit) (f : A -> Cmd) (g : A -> list LogMsg) :
  (forall x w, body x w = (Ok tt, extend [f x] (g x) w)) ->
  forall xs w,
    for_each xs body w = (Ok tt, extend (map f xs) (flat_map g xs) w).
Proof.
  intros Hbody. induction xs as [|x xs IH]; intros w; simpl.
  - rewrite extend_nil. reflexivity.
  - unfold bind. rewrite Hbody, IH, extend_extend. reflexivity.
Qed.

Lemma illuminance_loop_below (env : Env) (th : Q) (sensors : list string) :
  Forall (fun s => below env th s = true) sensors ->
  forall blocker w,
    illuminance_loop env th sensors blocker w = (Ok (Some blocker), w).
Proof.
  induction 1 as [|s rest Hs _ IH]; intros blocker w; simpl; [reflexivity|].
  unfold below, unparsable, reaches, reading in Hs.
  destruct (Py.float (get_state env s None)) as [r|e]; [|discriminate].
  simpl in Hs. apply negb_true_iff in Hs. rewrite Hs. apply IH.
Qed.

Lemma threshold_set_zero (th : Q) : (th == 0)%Q -> threshold_set (Some th) = false.
Proof. intros H. simpl. apply Qeq_eq_bool in H. rewrite H. reflexivity. Qed.

Lemma lights_on_passes (cfg : Config) (env : Env) (w : World) :
  illuminance_passes cfg env ->
  lights_on cfg env w = lights_on (with_thresholds_illuminance None cfg) env w.
Proof.
  unfold illuminance_passes, lights_on.
  destruct (thresholds_illuminance cfg) as [th|] eqn:Hth; [|reflexivity].
  intros [Hz | Hbelow].
  - rewrite (threshold_set_zero th Hz). reflexivity.
  - destruct (threshold_set (Some th)); [|reflexivity].
    unfold bind at 1 2.
    rewrite (illuminance_loop_below env _ _ Hbelow). reflexivity.
Qed.

(** X5: when every illuminance sensor has a reading under the threshold,
    the turn-on path does exactly what it does without any illuminance
    threshold. *)
Theorem lights_on_under_the_threshold
        (cfg : Config) (env : Env) (w : World) (th : Q) :
  thresholds_illuminance cfg = Some th ->
  Forall (fun s => below env th s = true) (sensors_illuminance cfg) ->
  lights_on cfg env w = lights_on (with_thresholds_illuminance None cfg) env w.
Proof.
  intros Hth Hbelow. apply lights_on_passes.
  unfold illuminance_passes. rewrite Hth. right. exact Hbelow.
Qed.

Lemma lights_on_under_the_threshold_witness :
  lights_on Bath.cfg Bath.env Bath.start
  = lights_on (with_thresholds_illuminance None Bath.cfg) Bath.env Bath.start.
Proof.
  apply (lights_on_under_the_threshold Bath.cfg Bath.env Bath.start (inject_Z 40)).
  - reflexivity.
  - repeat constructor.
Defined.

(** X6: under a brightness profile (an integer other than 0) that the
    illuminance blocker lets through, the turn-on path handles every
    light exactly once and in the configured order: a [switch.] entity is
    switched on, any other light gets a fade up to the profile's
    percentage at the configured duration; the timer is not touched. *)
Theorem lights_on_brightness_profile
        (cfg : Config) (env : Env) (w : World) (a : Daytime) (pct : Z) :
  illuminance_passes cfg env ->
  active w = Some a ->
  as_int (light_setting a) = Some pct ->
  pct <> 0 ->
  lights_on cfg env w
  = (Ok tt, extend (map (brightness_command cfg pct) (lights cfg))
                   (flat_map (brightness_log pct) (lights cfg)) w).
Proof.
  intros Hpass Ha Hset Hpct. rewrite (lights_on_passes cfg env w Hpass).
  unfold lights_on. simpl threshold_set. cbv iota.
  unfold bind at 1. unfold ret at 1. cbv iota.
  unfold bind at 1. unfold the_active. rewrite Ha.
  assert (Hz : (pct =? 0) = false) by (apply Z.eqb_neq; exact Hpct).
  assert (Hloop : forall w0,
             for_each (lights cfg) (fun entity =>
               if Py.startswith "switch." entity then turn_on_entity entity
               else
                 (create_task (CreateFade entity "up" pct (fadeSetting_on cfg)) ;;
                  log (LogBrightnessOn pct))) w0
             = (Ok tt, extend (map (brightness_command cfg pct) (lights cfg))
                              (flat_map (brightness_log pct) (lights cfg)) w0)).
  { apply for_each_extend. intros x w0.
    unfold brightness_command, brightness_log.
    destruct (Py.startswith "switch." x).
    - unfold turn_on_entity, call_service, modify. rewrite emit_extend. reflexivity.
    - unfold bind, create_task, log, modify.
      rewrite emit_extend, note_extend, extend_extend. reflexivity. }
  destruct (light_setting a) as [|b|z|q|s]; simpl in Hset; try discriminate;
    injection Hset as <-; cbn [as_int]; rewrite Hz; apply Hloop.
Qed.

Lemma lights_on_brightness_profile_witness :
  lights_on Bath.cfg Bath.env Bath.start
  = (Ok tt, extend (map (brightness_command Bath.cfg 100) (lights Bath.cfg))
                   (flat_map (brightness_log 100) (lights Bath.cfg)) Bath.start).
Proof.
  apply (lights_on_brightness_profile Bath.cfg Bath.env Bath.start Bath.day 100).
  - right. repeat constructor.
  - reflexivity.
  - reflexivity.
  - discriminate.
Defined.

(** X7: under a scene profile (a string) that the illuminance blocker
    lets through, the turn-on path sends exactly one service call per
    light, in the configured order: the Hue scene activation for a light
    that is a Hue group when the profile is one, else a plain turn-on of
    the scene entity (a [scene.] name) or of the light itself.  No fade is
    launched and the timer is not touched. *)
Theorem lights_on_scene_profile
        (cfg : Config) (env : Env) (w : World) (a : Daytime) (scene : string) :
  illuminance_passes cfg env ->
  active w = Some a ->
  light_setting a = PStr scene ->
  lights_on cfg env w
  = (Ok tt, extend (map (scene_command env a scene) (lights cfg))
                   [LogSceneOn scene] w).
Proof.
  intros Hpass Ha Hset. rewrite (lights_on_passes cfg env w Hpass).
  unfold lights_on. simpl threshold_set. cbv iota.
  unfold bind at 1. unfold ret at 1. cbv iota.
  unfold bind at 1. unfold the_active. rewrite Ha, Hset.
  unfold bind.
  rewrite (for_each_extend _ (scene_command env a scene) (fun _ => [])).
  - unfold log, modify. rewrite note_extend, extend_extend.
    rewrite app_nil_r.
    replace (flat_map (fun _ : string => @nil LogMsg)
                      (lights (with_thresholds_illuminance None cfg)))
      with (@nil LogMsg) by (induction (lights _); [reflexivity | assumption]).
    reflexivity.
  - intros x w0. unfold scene_command, turn_on_entity, call_service, modify.
    destruct (is_hue_group a
              && Py.truthy (get_state env x (Some "is_hue_group")));
      rewrite emit_extend; reflexivity.
Qed.

Lemma lights_on_scene_profile_witness :
  let evening := mkDaytime "evening" 90 "20:30:00" (PStr "scene.bath_dim") false in
  lights_on Bath.cfg Bath.env (blank (Some evening))
  = (Ok tt, extend (map (scene_command Bath.env evening "scene.bath_dim")
                        (lights Bath.cfg))
                   [LogSceneOn "scene.bath_dim"] (blank (Some evening))).
Proof.
  intros evening.
  apply (lights_on_scene_profile Bath.cfg Bath.env (blank (Some evening)) evening
                                 "scene.bath_dim").
  - right. repeat constructor.
  - reflexivity.
  - reflexivity.
Defined.

Example scene_entity_is_switched_on_per_light :
  let evening := mkDaytime "evening" 90 "20:30:00" (PStr "scene.bath_dim") false in
  map (scene_command Bath.env evening "scene.bath_dim") ["light.a"; "light.b"]
  = [CallService "homeassistant/turn_on" [("entity_id", PStr "scene.bath_dim")];
     CallService "homeassistant/turn_on" [("entity_id", PStr "scene.bath_dim")]].
Proof. reflexivity. Qed.

(** X8: under a profile whose light setting is the integer 0 (or False)
    that the illuminance blocker lets through, turning on is turning off:
    the turn-on path does exactly what the turn-off path does, disable
    rules, humidity blocker and timer included. *)
Theorem lights_on_zero_is_lights_off
        (cfg : Config) (env : Env) (w : World) (a : Daytime) :
  illuminance_passes cfg env ->
  active w = Some a ->
  as_int (light_setting a) = Some 0 ->
  lights_on cfg env w = lights_off cfg env w.
Proof.
  intros Hpass Ha Hset. rewrite (lights_on_passes cfg env w Hpass).
  unfold lights_on. simpl threshold_set. cbv iota.
  unfold bind at 1. unfold ret at 1. cbv iota.
  unfold bind at 1. unfold the_active. rewrite Ha.
  destruct (light_setting a) as [|b|z|q|s]; simpl in Hset; try discriminate;
    injection Hset as Hset; cbn [as_int]; rewrite Hset; reflexivity.
Qed.

Lemma lights_on_zero_is_lights_off_witness :
  let night := mkDaytime "night" 150 "22:30:00" (PInt 0) false in
  lights_on Bath.cfg Bath.lit (blank (Some night))
  = lights_off Bath.cfg Bath.lit (blank (Some night)).
Proof.
  intros night.
  apply (lights_on_zero_is_lights_off Bath.cfg Bath.lit (blank (Some night)) night).
  - right. repeat constructor.
  - reflexivity.
  - reflexivity.
Defined.

(** X9: when the illuminance blocker lets the turn-on through but no
    daytime is active yet, the turn-on path ends in [KeyError]; when the
    active light setting is neither a string nor an integer, it ends in
    [ValueError].  In both cases nothing was sent, logged or scheduled. *)
Theorem lights_on_without_usable_profile
        (cfg : Config) (env : Env) (w : World) :
  illuminance_passes cfg env ->
  (active w = None -> lights_on cfg env w = (Err KeyError, w))
  /\ (forall a,
         active w = Some a ->
         (light_setting a = PNone \/ exists q, light_setting a = PFloat q) ->
         lights_on cfg env w = (Err ValueError, w)).
Proof.
  intros Hpass. rewrite (lights_on_passes cfg env w Hpass).
  split; [intros Ha | intros a Ha Hl];
    unfold lights_on; simpl threshold_set; cbv iota;
    unfold bind at 1; unfold ret at 1; cbv iota;
    unfold bind at 1; unfold the_active; rewrite Ha.
  - reflexivity.
  - destruct Hl as [Hl | [q Hl]]; rewrite Hl; reflexivity.
Qed.

Lemma lights_on_without_usable_profile_witness :
  lights_on Bath.cfg Bath.env (blank None) = (Err KeyError, blank None)
  /\ lights_on Bath.cfg Bath.env
               (blank (Some (mkDaytime "day" 150 "07:30:00" (PFloat (1 # 2)) false)))
     = (Err ValueError,
        blank (Some (mkDaytime "day" 150 "07:30:00" (PFloat (1 # 2)) false))).
Proof.
  assert (Hpass : illuminance_passes Bath.cfg Bath.env)
    by (right; repeat constructor).
  split.
  - apply (proj1 (lights_on_without_usable_profile Bath.cfg Bath.env (blank None)
                    Hpass)).
    reflexivity.
  - apply (proj2 (lights_on_without_usable_profile Bath.cfg Bath.env
                    (blank (Some (mkDaytime "day" 150 "07:30:00"
                                            (PFloat (1 # 2)) false)))
                    Hpass)
                 (mkDaytime "day" 150 "07:30:00" (PFloat (1 # 2)) false)).
    + reflexivity.
    + right. exists (1 # 2). reflexivity.
Defined.

(** ** What the turn-off path does *)

Lemma sensors_over_below (env : Env) (th : Q) (sensors : list string) :
  Forall (fun s => below env th s = true) sensors ->
  sensors_over env th sensors = Ok [].
Proof.
  induction 1 as [|s rest Hs _ IH]; simpl; [reflexivity|].
  unfold below, unparsable, reaches, reading in Hs.
  destruct (Py.float (get_state env s None)) as [r|e]; [|discriminate].
  simpl in Hs. apply negb_true_iff in Hs. simpl. rewrite IH, Hs. reflexivity.
Qed.

Lemma humidity_blocker_passes (cfg : Config) (env : Env) :
  humidity_passes cfg env -> humidity_blocker cfg env = Ok None.
Proof.
  unfold humidity_passes, humidity_blocker.
  destruct (thresholds_humidity cfg) as [th|]; [|reflexivity].
  intros [Hz | Hbelow].
  - rewrite (threshold_set_zero th Hz). reflexivity.
  - destruct (threshold_set (Some th)); [|reflexivity].
    simpl. rewrite (sensors_over_below env th _ Hbelow). reflexivity.
Qed.

(** X10: when every humidity sensor has a reading under the threshold,
    the turn-off path does exactly what it does without any humidity
    threshold. *)
Theorem lights_off_under_the_threshold
        (cfg : Config) (env : Env) (w : World) (th : Q) :
  thresholds_humidity cfg = Some th ->
  Forall (fun s => below env th s = true) (sensors_humidity cfg) ->
  lights_off cfg env w = lights_off (with_thresholds_humidity None cfg) env w.
Proof.
  intros Hth Hbelow. unfold lights_off.
  assert (H : humidity_blocker cfg env
              = humidity_blocker (with_thresholds_humidity None cfg) env).
  { rewrite humidity_blocker_passes; [reflexivity|].
    unfold humidity_passes. rewrite Hth. right. exact Hbelow. }
  rewrite H. reflexivity.
Qed.

Lemma lights_off_under_the_threshold_witness :
  lights_off Bath.cfg Bath.lit Bath.fired
  = lights_off (with_thresholds_humidity None Bath.cfg) Bath.lit Bath.fired.
Proof.
  apply (lights_off_under_the_threshold Bath.cfg Bath.lit Bath.fired (inject_Z 60)).
  - reflexivity.
  - repeat constructor.
Defined.

Lemma lights_off_through (cfg : Config) (env : Env) (w : World) (a : Daytime) :
  not_disabled cfg env ->
  humidity_passes cfg env ->
  active w = Some a ->
  lights_off cfg env w
  = (Ok tt,
     extend (if any_light_on cfg env then map (fade_out_command cfg) (lights cfg)
             else [])
            (if any_light_on cfg env then [LogOff] else [])
            (set_timers (without (_handle w) (timers w)) w)).
Proof.
  intros Hnd Hpass Ha. unfold lights_off, bind.
  rewrite (check_disabled_clear cfg env w Hnd).
  unfold lift. rewrite (humidity_blocker_passes cfg env Hpass).
  cbn [blocker_truthy gets cancel_timer modify].
  fold (without (_handle w) (timers w)).
  destruct (any_light_on cfg env).
  - rewrite (for_each_extend _ (fade_out_command cfg) (fun _ => [])).
    + unfold the_active. cbn [active extend set_timers]. rewrite Ha.
      unfold log, modify. rewrite note_extend, extend_extend, app_nil_r.
      replace (flat_map (fun _ : string => @nil LogMsg) (lights cfg))
        with (@nil LogMsg) by (induction (lights cfg); [reflexivity | assumption]).
      reflexivity.
    + intros x w0. unfold create_task, modify. rewrite emit_extend. reflexivity.
  - unfold ret. rewrite extend_nil. reflexivity.
Qed.

(** X11: when no disable rule fires and the humidity blocker lets it
    through, the turn-off path cancels the timer the handle names and
    schedules none; if some light is on it launches a fade to 0 at the
    configured duration for every configured light, in order, whether
    that light is on or off and whether or not it is a [switch.] entity;
    if no light is on it sends nothing. *)
Theorem lights_off_fades_every_light
        (cfg : Config) (env : Env) (w : World) (a : Daytime) :
  not_disabled cfg env ->
  humidity_passes cfg env ->
  active w = Some a ->
  let w' := snd (lights_off cfg env w) in
  fst (lights_off cfg env w) = Ok tt
  /\ cmds w'
     = cmds w ++ (if any_light_on cfg env
                  then map (fade_out_command cfg) (lights cfg) else [])
  /\ timers w' = without (_handle w) (timers w)
  /\ next_handle w' = next_handle w.
Proof.
  intros Hnd Hpass Ha w'. subst w'.
  rewrite (lights_off_through cfg env w a Hnd Hpass Ha).
  repeat split; reflexivity.
Qed.

Lemma lights_off_fades_every_light_witness :
  let w' := snd (lights_off Bath.cfg Bath.lit Bath.occupied) in
  fst (lights_off Bath.cfg Bath.lit Bath.occupied) = Ok tt
  /\ cmds w'
     = cmds Bath.occupied
       ++ (if any_light_on Bath.cfg Bath.lit
           then map (fade_out_command Bath.cfg) (lights Bath.cfg) else [])
  /\ timers w' = without (_handle Bath.occupied) (timers Bath.occupied)
  /\ next_handle w' = next_handle Bath.occupied.
Proof.
  apply (lights_off_fades_every_light Bath.cfg Bath.lit Bath.occupied Bath.day).
  - repeat constructor.
  - right. repeat constructor.
  - reflexivity.
Defined.

Lemma timer_inv_without (w : World) :
  timer_inv w -> without (_handle w) (timers w) = [].
Proof.
  intros [[Hts | (h0 & d & Hts & Hh)] _]; rewrite Hts.
  - reflexivity.
  - rewrite Hh. apply without_own_handle.
Qed.

(** X12: when the pending auto-off timer fires and is neither vetoed nor
    blocked by humidity, the zone is left with no pending timer at all,
    and with a fade-out for every light if one was on. *)
Theorem fired_timer_leaves_none_pending
        (cfg : Config) (env : Env) (w : World) (a : Daytime) (h : nat) :
  timer_inv w ->
  pending h w = true ->
  not_disabled cfg env ->
  humidity_passes cfg env ->
  active w = Some a ->
  let w' := snd (dispatch cfg env (TimerFired h) w) in
  fst (dispatch cfg env (TimerFired h) w) = Ok tt
  /\ timers w' = []
  /\ cmds w'
     = cmds w ++ (if any_light_on cfg env
                  then map (fade_out_command cfg) (lights cfg) else []).
Proof.
  intros Hinv Hp Hnd Hpass Ha w'. subst w'.
  unfold dispatch, bind, gets. rewrite Hp.
  unfold expire. cbn [cancel_timer modify].
  set (w1 := set_timers _ w).
  assert (Hinv1 : timer_inv w1) by (apply (timer_inv_cancel (Some h) w Hinv)).
  rewrite (lights_off_through cfg env w1 a Hnd Hpass Ha).
  repeat split.
  cbn [snd timers extend set_timers]. apply timer_inv_without, Hinv1.
Qed.

Lemma fired_timer_leaves_none_pending_witness :
  let w' := snd (dispatch Bath.cfg Bath.lit (TimerFired 0) Bath.occupied) in
  fst (dispatch Bath.cfg Bath.lit (TimerFired 0) Bath.occupied) = Ok tt
  /\ timers w' = []
  /\ cmds w'
     = cmds Bath.occupied
       ++ (if any_light_on Bath.cfg Bath.lit
           then map (fade_out_command Bath.cfg) (lights Bath.cfg) else []).
Proof.
  apply (fired_timer_leaves_none_pending Bath.cfg Bath.lit Bath.occupied
                                         Bath.day 0%nat).
  - split; [right; exists 0%nat, 150; split; reflexivity | apply le_n].
  - reflexivity.
  - repeat constructor.
  - right. repeat constructor.
  - reflexivity.
Defined.

(** ** Motion *)

Lemma refresh_timer_cmds (w : World) :
  cmds (snd (refresh_timer w)) = cmds w /\ logs (snd (refresh_timer w)) = logs w.
Proof.
  unfold refresh_timer, bind, gets, cancel_timer, modify, the_active, run_in.
  simpl. destruct (active w) as [a|]; simpl; [|split; reflexivity].
  destruct (delay a =? 0); split; reflexivity.
Qed.

(** X13: the handler of a cleared state never sends a command and never
    writes a log line; when some motion sensor does not read the off
    state it cancels the timer the handle names and schedules none, and
    when all of them read the off state and a daytime is active it
    refreshes the timer. *)
Theorem motion_cleared_only_moves_the_timer
        (cfg : Config) (env : Env) (w : World) :
  let w' := snd (motion_cleared cfg env w) in
  cmds w' = cmds w
  /\ logs w' = logs w
  /\ (motion_goes_on cfg env ->
      fst (motion_cleared cfg env w) = Ok tt
      /\ timers w' = without (_handle w) (timers w)
      /\ next_handle w' = next_handle w)
  /\ (~ motion_goes_on cfg env ->
      forall a, active w = Some a -> motion_cleared cfg env w = (Ok tt, refreshed a w)).
Proof.
  intros w'. subst w'. unfold motion_cleared, motion_goes_on.
  destruct (forallb _ (sensors_motion cfg)).
  - destruct (refresh_timer_cmds w) as [Hc Hl].
    repeat split; try assumption; try discriminate.
    intros _ a Ha. apply refresh_timer_refreshed, Ha.
  - unfold bind, gets.
    destruct w as [act [h|] ts n pk cs ls]; cbn -[without];
      rewrite ?without_none; repeat split;
      try reflexivity; intros H; exfalso; apply H; reflexivity.
Qed.

Example cleared_with_all_sensors_off_starts_the_timer :
  motion_cleared Bath.cfg (Bath.having Bath.sensor (PStr "off") Bath.lit) Bath.fired
  = (Ok tt, mkWorld (Some Bath.day) (Some 1%nat) [(1%nat, 150)] 2%nat 1%nat
                    (cmds Bath.fired) (logs Bath.fired)).
Proof. reflexivity. Qed.

(** X14: a motion pulse that arrives while a light is on, with no disable
    rule firing, sends no command at all: it logs and restarts the timer
    at the active profile's delay. *)
Theorem pulse_with_light_on_restarts_the_timer_only
        (cfg : Config) (env : Env) (entity : string) (w : World) (a : Daytime) :
  not_disabled cfg env ->
  any_light_on cfg env = true ->
  active w = Some a ->
  motion_event cfg env EVENT_MOTION_XIAOMI entity w
  = (Ok tt, refreshed a (note LogAlreadyOn
                           (note (LogReceived EVENT_MOTION_XIAOMI entity) w))).
Proof.
  intros Hnd Hany Ha. unfold motion_event, bind, log, modify.
  rewrite (check_disabled_clear cfg env _ Hnd), Hany. cbn [negb].
  change (negb (EVENT_MOTION_XIAOMI =? "state_changed_detection")%string)
    with true. cbv iota.
  apply refresh_timer_refreshed. exact Ha.
Qed.

Lemma pulse_with_light_on_restarts_the_timer_only_witness :
  motion_event Bath.cfg Bath.lit EVENT_MOTION_XIAOMI Bath.sensor Bath.occupied
  = (Ok tt, refreshed Bath.day
              (note LogAlreadyOn
                    (note (LogReceived EVENT_MOTION_XIAOMI Bath.sensor)
                          Bath.occupied))).
Proof.
  apply (pulse_with_light_on_restarts_the_timer_only
           Bath.cfg Bath.lit Bath.sensor Bath.occupied Bath.day).
  - repeat constructor.
  - reflexivity.
  - reflexivity.
Defined.

Lemma settled_refresh (a : Daytime) (n : nat) (w : World) :
  timer_inv w /\ active w = Some a /\ (n <= next_handle w)%nat ->
  let w' := snd (refresh_timer w) in
  timer_inv w' /\ active w' = Some a /\ (n <= next_handle w')%nat.
Proof.
  intros (Hinv & Ha & Hn). split; [apply timer_inv_refresh, Hinv|].
  cbv zeta. rewrite (refresh_timer_refreshed a w Ha). unfold refreshed.
  destruct (delay a =? 0); simpl; split; try assumption. lia.
Qed.

(** X15: after a motion pulse that was handled without error while no
    disable rule fired and the active profile's delay is not 0, exactly
    one timer is pending: a new one, at the active profile's delay, and
    it is the one the handle names.  This holds whatever the turn-on path
    did before, the turn-off path of a profile with light setting 0
    included. *)
Theorem pulse_leaves_one_fresh_timer
        (cfg : Config) (env : Env) (entity : string) (w : World) (a : Daytime) :
  timer_inv w ->
  not_disabled cfg env ->
  active w = Some a ->
  delay a <> 0 ->
  fst (motion_event cfg env EVENT_MOTION_XIAOMI entity w) = Ok tt ->
  let w' := snd (motion_event cfg env EVENT_MOTION_XIAOMI entity w) in
  exists h,
    (next_handle w <= h)%nat
    /\ timers w' = [(h, delay a)]
    /\ _handle w' = Some h.
Proof.
  intros Hinv Hnd Ha Hdelay. unfold motion_event, bind, log, modify.
  rewrite (check_disabled_clear cfg env _ Hnd).
  set (w0 := note (LogReceived EVENT_MOTION_XIAOMI entity) w).
  set (m := if negb (any_light_on cfg env) then lights_on cfg env
            else fun w1 => (Ok tt, note LogAlreadyOn w1)).
  assert (HP : timer_inv (snd (m w0)) /\ active (snd (m w0)) = Some a
               /\ (next_handle w <= next_handle (snd (m w0)))%nat).
  { subst m. destruct (negb (any_light_on cfg env)).
    - apply (pres_lights_on
               (fun x => timer_inv x /\ active x = Some a
                         /\ (next_handle w <= next_handle x)%nat)).
      + intros l x H. exact H.
      + intros c x H. exact H.
      + intros h x (H1 & H2 & H3).
        split; [apply timer_inv_cancel, H1 | split; assumption].
      + intros x. apply settled_refresh.
      + split; [exact Hinv | split; [exact Ha | apply le_n]].
    - split; [exact Hinv | split; [exact Ha | apply le_n]]. }
  destruct (m w0) as [[[]|e] w1]; cbn [fst snd] in *; [|discriminate].
  change (negb (EVENT_MOTION_XIAOMI =? "state_changed_detection")%string)
    with true. cbv iota.
  destruct HP as (Hinv1 & Ha1 & Hn1).
  rewrite (refresh_timer_refreshed a w1 Ha1). intros _. cbn [snd].
  unfold refreshed. apply Z.eqb_neq in Hdelay. rewrite Hdelay.
  rewrite (timer_inv_without w1 Hinv1).
  exists (next_handle w1). repeat split. exact Hn1.
Qed.

Lemma pulse_leaves_one_fresh_timer_witness :
  let w' := snd (motion_event Bath.cfg Bath.env EVENT_MOTION_XIAOMI Bath.sensor
                              Bath.occupied) in
  exists h,
    (next_handle Bath.occupied <= h)%nat
    /\ timers w' = [(h, delay Bath.day)]
    /\ _handle w' = Some h.
Proof.
  apply (pulse_leaves_one_fresh_timer Bath.cfg Bath.env Bath.sensor Bath.occupied
                                      Bath.day).
  - split; [right; exists 0%nat, 150; split; reflexivity | apply le_n].
  - repeat constructor.
  - reflexivity.
  - discriminate.
  - reflexivity.
Defined.

(** ** Disable rules and the timer *)

Lemma check_disabled_vetoed (cfg : Config) (env : Env) (w : World) :
  vetoed cfg env ->
  exists l,
    find (line_fires env) (disable_switch_entity cfg) = Some l
    /\ check_disabled env (disable_switch_entity cfg) w
       = (Ok true, note (LogDisabled l) w).
Proof.
  intros [Hwf [l Hl]]. exists l. split; [exact Hl|].
  apply check_disabled_first; assumption.
Qed.

Lemma detected_sends_nothing_when_disabled
      (cfg : Config) (env : Env) (entity : string) (w : World) :
  vetoed cfg env ->
  cmds (snd (motion_detected cfg env entity w)) = cmds w.
Proof.
  intros Hv. rewrite motion_detected_cancels.
  unfold motion_event, bind, log, modify.
  destruct (check_disabled_vetoed cfg env
              (note (LogReceived "state_changed_detection" entity)
                    (set_timers (without (_handle w) (timers w)) w)) Hv)
    as (l & _ & ->).
  reflexivity.
Qed.

(** X16: a disable rule does not shield the timer from a detected state:
    when a rule fires, the handler of a detected state still cancels the
    timer the handle names before it returns, and neither sends a command
    nor schedules a timer.  A disabled zone whose sensor reports motion
    is left without auto-off timer. *)
Theorem detected_cancels_the_timer_even_when_disabled
        (cfg : Config) (env : Env) (entity : string) (w : World) :
  vetoed cfg env ->
  let w' := snd (motion_detected cfg env entity w) in
  fst (motion_detected cfg env entity w) = Ok tt
  /\ timers w' = without (_handle w) (timers w)
  /\ next_handle w' = next_handle w
  /\ cmds w' = cmds w.
Proof.
  intros Hv w'. subst w'. rewrite motion_detected_cancels.
  unfold motion_event, bind, log, modify.
  destruct (check_disabled_vetoed cfg env
              (note (LogReceived "state_changed_detection" entity)
                    (set_timers (without (_handle w) (timers w)) w)) Hv)
    as (l & _ & ->).
  repeat split; reflexivity.
Qed.

Lemma detected_cancels_the_timer_even_when_disabled_witness :
  let w' := snd (motion_detected Bath.cfg Bath.guarded Bath.sensor Bath.occupied) in
  fst (motion_detected Bath.cfg Bath.guarded Bath.sensor Bath.occupied) = Ok tt
  /\ timers w' = without (_handle Bath.occupied) (timers Bath.occupied)
  /\ next_handle w' = next_handle Bath.occupied
  /\ cmds w' = cmds Bath.occupied.
Proof.
  apply (detected_cancels_the_timer_even_when_disabled
           Bath.cfg Bath.guarded Bath.sensor Bath.occupied).
  split.
  - repeat constructor; discriminate.
  - exists "switch.guard, on". reflexivity.
Defined.

Example disabled_zone_loses_its_timer :
  timers Bath.occupied = [(0%nat, 150)]
  /\ timers (snd (motion_detected Bath.cfg Bath.guarded Bath.sensor Bath.occupied))
     = [].
Proof. split; reflexivity. Qed.

Lemma vetoed_step_sends_nothing (cfg : Config) (w : World) (ev : Env * Event) :
  vetoed cfg (fst ev) -> cmds (step cfg w ev) = cmds w.
Proof.
  destruct ev as [env e]. cbn [fst]. intros Hv. unfold step. cbn [fst snd].
  destruct e as [entity|entity| |h|d]; cbn [dispatch].
  - unfold motion_event, bind, log, modify.
    destruct (check_disabled_vetoed cfg env
                (note (LogReceived EVENT_MOTION_XIAOMI entity) w) Hv)
      as (l & _ & ->).
    reflexivity.
  - apply (detected_sends_nothing_when_disabled cfg env entity w Hv).
  - unfold motion_cleared.
    destruct (forallb _ (sensors_motion cfg)).
    + apply refresh_timer_cmds.
    + unfold bind, gets. destruct (_handle w); reflexivity.
  - unfold bind, gets. destruct (pending h w); [|reflexivity].
    unfold expire. cbn [cancel_timer modify]. unfold lights_off, bind.
    destruct (check_disabled_vetoed cfg env
                (set_timers (filter (fun t => negb (is_handle (Some h) t)) (timers w)) w)
                Hv)
      as (l & _ & ->).
    reflexivity.
  - reflexivity.
Qed.

(** X17: while a disable rule fires, no callback sends anything: over any
    sequence of motion pulses, detected and cleared states, timers that
    fire and daytime switches, each seen with some rule firing, not one
    service call is made and not one fade is launched. *)
Theorem disabled_zone_sends_nothing
        (cfg : Config) (evs : list (Env * Event)) (w : World) :
  Forall (fun ev => vetoed cfg (fst ev)) evs ->
  cmds (run cfg evs w) = cmds w.
Proof.
  unfold run. intros Hevs. revert w.
  induction Hevs as [|ev rest Hev _ IH]; intros w; simpl; [reflexivity|].
  rewrite IH. apply vetoed_step_sends_nothing, Hev.
Qed.

Lemma disabled_zone_sends_nothing_witness :
  cmds (run Bath.cfg
            [(Bath.guarded, MotionPulse Bath.sensor);
             (Bath.guarded, Detected Bath.sensor);
             (Bath.guarded, Cleared);
             (Bath.guarded, TimerFired 0)]
            Bath.start)
  = cmds Bath.start.
Proof.
  apply (disabled_zone_sends_nothing Bath.cfg).
  assert (H : vetoed Bath.cfg Bath.guarded).
  { split; [repeat constructor; discriminate|].
    exists "switch.guard, on". reflexivity. }
  repeat (apply Forall_cons; [exact H|]). apply Forall_nil.
Defined.

Lemma eval_headless (env : Env) (line : string) :
  headless line -> eval_disable_switch_conf env line = Err ValueError.
Proof.
  unfold headless, eval_disable_switch_conf. intros H.
  rewrite unpack_pair_parse, H. reflexivity.
Qed.

Lemma check_disabled_headless (env : Env) (line : string) (after : list string) :
  headless line ->
  forall before w,
    Forall (fun l => eval_disable_switch_conf env l = Ok false) before ->
    check_disabled env (before ++ line :: after) w = (Err ValueError, w).
Proof.
  intros Hh. induction before as [|x before IH]; intros w Hb; simpl.
  - unfold bind, lift. rewrite (eval_headless env line Hh). reflexivity.
  - inversion Hb as [|? ? Hx Hrest]; subst.
    unfold bind, lift. rewrite Hx. apply IH, Hrest.
Qed.

(** X18: a disable line whose first field does not split on one comma
    into entity and state makes the rule check raise [ValueError] as soon
    as it is reached (no rule before it firing): the motion handler then
    ends before it looks at any light or timer, and so does the turn-off
    handler.  Such a line stops the zone from switching on and off at
    all. *)
Theorem malformed_rule_stops_both_paths
        (cfg : Config) (env : Env) (w : World)
        (before after : list string) (line event entity : string) :
  disable_switch_entity cfg = before ++ line :: after ->
  Forall (fun l => eval_disable_switch_conf env l = Ok false) before ->
  headless line ->
  motion_event cfg env event entity w
  = (Err ValueError, note (LogReceived event entity) w)
  /\ lights_off cfg env w = (Err ValueError, w).
Proof.
  intros Hcfg Hb Hh. unfold motion_event, lights_off, bind, log, modify.
  rewrite Hcfg, !(check_disabled_headless env line after Hh before _ Hb).
  split; reflexivity.
Qed.

Lemma malformed_rule_stops_both_paths_witness :
  let cfg :=
    mkConfig "bath" [Bath.sensor] [] [] (PStr "on") (PStr "off") None None
             ["switch.guard, on"; "input_boolean.away"] (inject_Z 3) (inject_Z 3)
             ["light.bath"] in
  motion_event cfg Bath.env EVENT_MOTION_XIAOMI Bath.sensor Bath.start
  = (Err ValueError, note (LogReceived EVENT_MOTION_XIAOMI Bath.sensor) Bath.start)
  /\ lights_off cfg Bath.env Bath.start = (Err ValueError, Bath.start).
Proof.
  intros cfg.
  apply (malformed_rule_stops_both_paths cfg Bath.env Bath.start
           ["switch.guard, on"] [] "input_boolean.away").
  - reflexivity.
  - repeat constructor.
  - reflexivity.
Defined.

(** ** Building the daytimes *)

Lemma seen_before (t : Z) (starttimes : list Z) :
  existsb (Z.eqb t) starttimes = true <-> In t starttimes.
Proof.
  rewrite existsb_exists. split.
  - intros (x & Hx & E). apply Z.eqb_eq in E. subst. exact Hx.
  - intros H. exists t. split; [exact H | apply Z.eqb_refl].
Qed.

Lemma build_loop_ok (env : Env) (clock : Clock) (lights : list string)
      (delay : Z) (all : list DaytimeConf) :
  forall todo idx starttimes s s',
    build_loop env clock lights delay all idx todo starttimes s = (Ok tt, s') ->
    exists ts,
      starts_parse clock todo ts
      /\ NoDup ts
      /\ (forall t, In t ts -> ~ In t starttimes)
      /\ su_daily s' = su_daily s ++ built_from env clock lights delay idx todo ts
      /\ latest_open_window env clock lights delay all idx todo ts
                            (active (su_world s)) (active (su_world s'))
      /\ timers (su_world s') = timers (su_world s)
      /\ cmds (su_world s') = cmds (su_world s)
      /\ logs (su_world s') = logs (su_world s).
Proof.
  induction todo as [|c rest IH]; intros idx starttimes s s' H; simpl in H.
  - injection H as <-. exists [].
    split; [constructor|]. split; [constructor|]. split; [intros t []|].
    split; [rewrite app_nil_r; reflexivity|].
    split; [|repeat split; reflexivity].
    left. split; [reflexivity|]. intros [|k] c t Hc; discriminate Hc.
  - destruct (parse_time clock (conf_starttime c)) as [t0|e] eqn:Hparse;
      [|discriminate].
    destruct (existsb (Z.eqb t0) starttimes) eqn:Hseen; [discriminate|].
    destruct (now_is_between clock (isoformat clock t0) _) as [b|e] eqn:Hnow;
      [|discriminate].
    match type of H with
    | build_loop _ _ _ _ _ _ _ _ ?x = _ => set (s2 := x) in H
    end.
    assert (Hs2 : active (su_world s2)
                  = (if b then Some (built_daytime env clock lights delay idx c t0)
                     else active (su_world s))
                  /\ su_daily s2
                     = su_daily s
                       ++ [(t0, built_daytime env clock lights delay idx c t0)]
                  /\ timers (su_world s2) = timers (su_world s)
                  /\ cmds (su_world s2) = cmds (su_world s)
                  /\ logs (su_world s2) = logs (su_world s))
      by (subst s2; destruct b; repeat split; reflexivity).
    clearbody s2. destruct Hs2 as (Ha2 & Hd2 & Ht2 & Hc2 & Hl2).
    apply IH in H.
    destruct H as (ts & Hp & Hnd & Hfresh & Hdaily & Hact & Ht & Hc & Hl).
    assert (Hopen : window_open clock all (idx + 0) c t0 = b).
    { unfold window_open. rewrite Nat.add_0_r, Hnow. reflexivity. }
    exists (t0 :: ts). split; [constructor; assumption|].
    split.
    { constructor; [|exact Hnd]. intros Hin. apply (Hfresh t0 Hin). left. reflexivity. }
    split.
    { intros t [<- | Hin] Hs.
      - apply seen_before in Hs. congruence.
      - apply (Hfresh t Hin). right. exact Hs. }
    split.
    { rewrite Hdaily, Hd2, <- app_assoc. reflexivity. }
    split; [|rewrite Ht, Hc, Hl; repeat split; assumption].
    rewrite Ha2 in Hact.
    destruct Hact as [[Heq Hclosed] | (k & c' & t' & Hk1 & Hk2 & Hk3 & Hk4 & Hk5)].
    + destruct b.
      * right. exists 0%nat, c, t0.
        split; [reflexivity|]. split; [reflexivity|]. split; [exact Hopen|].
        split; [rewrite Nat.add_0_r; exact Heq|].
        intros [|j] c' t' Hj Hc' Ht'; [lia|].
        rewrite Nat.add_succ_r. apply (Hclosed j c' t' Hc' Ht').
      * left. split; [exact Heq|].
        intros [|k] c' t' Hc' Ht'.
        -- simpl in Hc', Ht'. injection Hc' as <-. injection Ht' as <-. exact Hopen.
        -- rewrite Nat.add_succ_r. apply (Hclosed k c' t' Hc' Ht').
    + right. exists (S k), c', t'.
      split; [exact Hk1|]. split; [exact Hk2|].
      split; [rewrite Nat.add_succ_r; exact Hk3|].
      split; [rewrite Nat.add_succ_r; exact Hk4|].
      intros [|j] c'' t'' Hj Hc'' Ht''; [lia|].
      rewrite Nat.add_succ_r. apply (Hk5 j c'' t''); [lia | assumption..].
Qed.

(** X19: when [build_daytimes] returns, it returns its argument as it
    was (not the dicts it laid out); every start time was parsed and no
    two of them are equal; and exactly one daily callback was registered
    per entry, in order, at the entry's start time and with the dict laid
    out for it. *)
Theorem build_daytimes_registers_every_entry
        (env : Env) (clock : Clock) (lights : list string)
        (arg_delay : option pyval) (daytimes r : list DaytimeConf) (s : Setup) :
  fst (build_daytimes env clock lights arg_delay daytimes s) = Ok r ->
  let s' := snd (build_daytimes env clock lights arg_delay daytimes s) in
  r = daytimes
  /\ exists delay ts,
      Py.int (match arg_delay with Some v => v | None => DEFAULT_DELAY end)
      = Ok delay
      /\ starts_parse clock daytimes ts
      /\ NoDup ts
      /\ su_daily s'
         = su_daily s ++ built_from env clock lights delay 0 daytimes ts.
Proof.
  unfold build_daytimes.
  destruct (Py.int _) as [delay|e]; [|discriminate].
  destruct (build_loop env clock lights delay daytimes 0 daytimes [] s)
    as [[[]|e] s1] eqn:Hloop; [|discriminate].
  intros H. injection H as <-. cbn [snd]. split; [reflexivity|].
  destruct (build_loop_ok env clock lights delay daytimes _ _ _ _ _ Hloop)
    as (ts & Hp & Hnd & _ & Hdaily & _).
  exists delay, ts. repeat split; assumption.
Qed.

Lemma build_daytimes_registers_every_entry_witness :
  let s' := snd (build_daytimes Bath.env (Day.clock 360) ["light.bath"] None
                                Day.defaults Day.setup) in
  Day.defaults = Day.defaults
  /\ exists delay ts,
      Py.int (match @None pyval with Some v => v | None => DEFAULT_DELAY end)
      = Ok delay
      /\ starts_parse (Day.clock 360) Day.defaults ts
      /\ NoDup ts
      /\ su_daily s'
         = su_daily Day.setup
           ++ built_from Bath.env (Day.clock 360) ["light.bath"] delay 0
                         Day.defaults ts.
Proof.
  apply (build_daytimes_registers_every_entry
           Bath.env (Day.clock 360) ["light.bath"] None Day.defaults Day.defaults
           Day.setup).
  reflexivity.
Defined.

Example default_daytimes_in_the_morning :
  let s' := snd (build_daytimes Bath.env (Day.clock 360) ["light.bath"] None
                                Day.defaults Day.setup) in
  active (su_world s') = Some (mkDaytime "morning" 150 "05:30:00" (PInt 25) false)
  /\ su_active_daytime s' = Some "morning"
  /\ map fst (su_daily s') = [330; 450; 1230; 1350].
Proof. repeat split; reflexivity. Qed.

Example default_daytimes_before_dawn :
  let s' := snd (build_daytimes Bath.env (Day.clock 300) ["light.bath"] None
                                Day.defaults Day.setup) in
  active (su_world s') = Some (mkDaytime "night" 150 "22:30:00" (PInt 0) false).
Proof. reflexivity. Qed.

Example unnamed_daytime_gets_its_index :
  daytime (built_daytime Bath.env (Day.clock 360) ["light.bath"] 150 12
                         (mkDaytimeConf (Some "05:30") None None None) 330)
  = "daytime_12".
Proof. reflexivity. Qed.

(** X20: when [build_daytimes] returns, the active daytime is the dict of
    the last entry, in the order of the argument, whose window from its
    start time to the next entry's start time contains the current time;
    when no window does, the active daytime is what it was before (none
    at start-up).  Nothing is logged, sent or scheduled on the timer. *)
Theorem build_daytimes_activates_the_latest_open_window
        (env : Env) (clock : Clock) (lights : list string)
        (arg_delay : option pyval) (daytimes r : list DaytimeConf) (s : Setup) :
  fst (build_daytimes env clock lights arg_delay daytimes s) = Ok r ->
  let s' := snd (build_daytimes env clock lights arg_delay daytimes s) in
  exists delay ts,
    Py.int (match arg_delay with Some v => v | None => DEFAULT_DELAY end)
    = Ok delay
    /\ starts_parse clock daytimes ts
    /\ latest_open_window env clock lights delay daytimes 0 daytimes ts
                          (active (su_world s)) (active (su_world s'))
    /\ timers (su_world s') = timers (su_world s)
    /\ cmds (su_world s') = cmds (su_world s)
    /\ logs (su_world s') = logs (su_world s).
Proof.
  unfold build_daytimes.
  destruct (Py.int _) as [delay|e]; [|discriminate].
  destruct (build_loop env clock lights delay daytimes 0 daytimes [] s)
    as [[[]|e] s1] eqn:Hloop; [|discriminate].
  intros _. cbn [snd].
  destruct (build_loop_ok env clock lights delay daytimes _ _ _ _ _ Hloop)
    as (ts & Hp & _ & _ & _ & Hact & Ht & Hc & Hl).
  exists delay, ts. repeat split; assumption.
Qed.

Lemma build_daytimes_activates_the_latest_open_window_witness :
  let s' := snd (build_daytimes Bath.env (Day.clock 360) ["light.bath"] None
                                Day.defaults Day.setup) in
  exists delay ts,
    Py.int (match @None pyval with Some v => v | None => DEFAULT_DELAY end)
    = Ok delay
    /\ starts_parse (Day.clock 360) Day.defaults ts
    /\ latest_open_window Bath.env (Day.clock 360) ["light.bath"] delay
                          Day.defaults 0 Day.defaults ts
                          (active (su_world Day.setup)) (active (su_world s'))
    /\ timers (su_world s') = timers (su_world Day.setup)
    /\ cmds (su_world s') = cmds (su_world Day.setup)
    /\ logs (su_world s') = logs (su_world Day.setup).
Proof.
  apply (build_daytimes_activates_the_latest_open_window
           Bath.env (Day.clock 360) ["light.bath"] None Day.defaults Day.defaults
           Day.setup).
  reflexivity.
Defined.

Lemma build_loop_distinct (env : Env) (clock : Clock) (lights : list string)
      (delay : Z) (all : list DaytimeConf) :
  clock_answers clock ->
  forall todo ts,
    starts_parse clock todo ts ->
    forall idx starttimes s,
      NoDup ts ->
      (forall t, In t ts -> ~ In t starttimes) ->
      fst (build_loop env clock lights delay all idx todo starttimes s) = Ok tt.
Proof.
  intros Hclock todo ts Hp.
  induction Hp as [|c t0 rest ts Hc _ IH]; intros idx starttimes s Hnd Hfresh;
    simpl; [reflexivity|].
  rewrite Hc.
  destruct (existsb (Z.eqb t0) starttimes) eqn:Hseen.
  { apply seen_before in Hseen. exfalso. apply (Hfresh t0); [left; reflexivity|].
    exact Hseen. }
  destruct (Hclock (isoformat clock t0)
                   (str_of_starttime
                      (conf_starttime
                         (nth ((idx + 1) mod List.length all) all c))))
    as [b ->].
  inversion Hnd as [|? ? Hnotin Hnd']; subst.
  apply IH; [exact Hnd'|].
  intros t Hin [<- | Hs]; [contradiction|].
  apply (Hfresh t); [right; exact Hin | exact Hs].
Qed.

Lemma build_loop_duplicate (env : Env) (clock : Clock) (lights : list string)
      (delay : Z) (all : list DaytimeConf) :
  clock_answers clock ->
  forall todo ts,
    starts_parse clock todo ts ->
    forall idx starttimes s,
      ~ NoDup ts \/ (exists t, In t ts /\ In t starttimes) ->
      fst (build_loop env clock lights delay all idx todo starttimes s)
      = Err ValueError.
Proof.
  intros Hclock todo ts Hp.
  induction Hp as [|c t0 rest ts Hc _ IH]; intros idx starttimes s Hdup; simpl.
  - exfalso. destruct Hdup as [H | (t & [] & _)]. apply H. constructor.
  - rewrite Hc.
    destruct (existsb (Z.eqb t0) starttimes) eqn:Hseen; [reflexivity|].
    destruct (Hclock (isoformat clock t0)
                     (str_of_starttime
                        (conf_starttime
                           (nth ((idx + 1) mod List.length all) all c))))
      as [b ->].
    apply IH.
    destruct (in_dec Z.eq_dec t0 ts) as [Hin | Hnotin].
    + right. exists t0. split; [exact Hin | left; reflexivity].
    + destruct Hdup as [H | (t & [<- | Hin] & Hs)].
      * left. intros Hnd. apply H. constructor; assumption.
      * exfalso. apply seen_before in Hs. congruence.
      * right. exists t. split; [exact Hin | right; exact Hs].
Qed.

(** X21: with a clock that answers and start times that all parse,
    [build_daytimes] returns when the start times are pairwise distinct
    and raises [ValueError] when two entries start at the same time (for
    instance two spellings of one time). *)
Theorem build_daytimes_wants_distinct_start_times
        (env : Env) (clock : Clock) (lights : list string)
        (arg_delay : option pyval) (daytimes : list DaytimeConf) (s : Setup)
        (delay : Z) (ts : list Z) :
  clock_answers clock ->
  Py.int (match arg_delay with Some v => v | None => DEFAULT_DELAY end)
  = Ok delay ->
  starts_parse clock daytimes ts ->
  (NoDup ts ->
   fst (build_daytimes env clock lights arg_delay daytimes s) = Ok daytimes)
  /\ (~ NoDup ts ->
      fst (build_daytimes env clock lights arg_delay daytimes s) = Err ValueError).
Proof.
  intros Hclock Hint Hp. unfold build_daytimes. rewrite Hint. split; intros Hnd.
  - pose proof (build_loop_distinct env clock lights delay daytimes Hclock
                  daytimes ts Hp 0%nat [] s Hnd) as H.
    destruct (build_loop env clock lights delay daytimes 0 daytimes [] s)
      as [[[]|e] s1]; cbn [fst] in *.
    + reflexivity.
    + assert (He : @Err unit e = Ok tt) by (apply H; intros t _ []).
      discriminate He.
  - pose proof (build_loop_duplicate env clock lights delay daytimes Hclock
                  daytimes ts Hp 0%nat [] s (or_introl Hnd)) as H.
    destruct (build_loop env clock lights delay daytimes 0 daytimes [] s)
      as [[[]|e] s1]; cbn [fst] in *.
    + discriminate H.
    + injection H as ->. reflexivity.
Qed.

Lemma build_daytimes_wants_distinct_start_times_witness :
  fst (build_daytimes Bath.env (Day.lenient 360) ["light.bath"] None Day.defaults
                      Day.setup)
  = Ok Day.defaults
  /\ fst (build_daytimes Bath.env (Day.lenient 360) ["light.bath"] None
            [mkDaytimeConf (Some "07:30") (Some "day") None None;
             mkDaytimeConf (Some "7:30") (Some "also day") None None]
            Day.setup)
     = Err ValueError.
Proof.
  assert (Hclock : clock_answers (Day.lenient 360)).
  { intros a b. unfold Day.lenient, now_is_between at 1.
    destruct (now_is_between (Day.clock 360) a b); eauto. }
  split.
  - apply (proj1 (build_daytimes_wants_distinct_start_times
                    Bath.env (Day.lenient 360) ["light.bath"] None Day.defaults
                    Day.setup 150 [330; 450; 1230; 1350] Hclock eq_refl
                    ltac:(repeat constructor))).
    repeat constructor; simpl; intuition discriminate.
  - apply (proj2 (build_daytimes_wants_distinct_start_times
                    Bath.env (Day.lenient 360) ["light.bath"] None
                    [mkDaytimeConf (Some "07:30") (Some "day") None None;
                     mkDaytimeConf (Some "7:30") (Some "also day") None None]
                    Day.setup 150 [450; 450] Hclock eq_refl
                    ltac:(repeat constructor))).
    intros H. inversion H as [|? ? Hnotin _]. apply Hnotin. left. reflexivity.
Defined.

Example same_time_twice_is_refused :
  fst (build_daytimes Bath.env (Day.clock 360) ["light.bath"] None
         [mkDaytimeConf (Some "07:30") (Some "day") None None;
          mkDaytimeConf (Some "7:30") (Some "also day") None None]
         Day.setup)
  = Err ValueError.
Proof. reflexivity. Qed.

Example missing_start_time_is_refused :
  fst (build_daytimes Bath.env (Day.clock 360) ["light.bath"] None
         [mkDaytimeConf (Some "07:30") (Some "day") None None;
          mkDaytimeConf (Some "noon") (Some "lunch") None None]
         Day.setup)
  = Err ValueError.
Proof. reflexivity. Qed.

(** ** Start-up *)

(** X22: when only one of [motion_state_on] and [motion_state_off] is
    configured, [initialize] registers no listener for any motion sensor
    and does not start the timer: the zone never reacts to motion. *)
Theorem half_configured_states_leave_the_zone_deaf (cfg : Config) (w : World) :
  Py.truthy (states_motion_on cfg) = negb (Py.truthy (states_motion_off cfg)) ->
  listeners_of cfg = []
  /\ initialize_listeners cfg w = (Ok tt, w).
Proof.
  intros Hxor. unfold listeners_of, initialize_listeners. rewrite Hxor.
  destruct (Py.truthy (states_motion_off cfg)); cbn [negb orb andb]; split;
    induction (sensors_motion cfg) as [|x xs IH]; try reflexivity;
    simpl; unfold bind, ret; exact IH.
Qed.

Lemma half_configured_states_leave_the_zone_deaf_witness :
  let cfg :=
    mkConfig "bath" [Bath.sensor] [] [] (PStr "on") PNone None None []
             (inject_Z 3) (inject_Z 3) ["light.bath"] in
  listeners_of cfg = []
  /\ initialize_listeners cfg Bath.start = (Ok tt, Bath.start).
Proof.
  intros cfg.
  apply (half_configured_states_leave_the_zone_deaf cfg Bath.start).
  reflexivity.
Defined.

Example both_states_give_two_listeners :
  listeners_of Bath.cfg
  = [ListenState CbMotionDetected Bath.sensor (PStr "on");
     ListenState CbMotionCleared Bath.sensor (PStr "off")].
Proof. reflexivity. Qed.

Lemma refresh_loop_arms (a : Daytime) :
  delay a <> 0 ->
  forall (sensors : list string) (w : World),
    sensors <> [] ->
    timer_inv w -> active w = Some a ->
    let r := for_each sensors (fun _ => refresh_timer) w in
    fst r = Ok tt
    /\ timer_inv (snd r) /\ active (snd r) = Some a
    /\ exists h, timers (snd r) = [(h, delay a)] /\ _handle (snd r) = Some h.
Proof.
  intros Hd. induction sensors as [|x xs IH]; intros w Hne Hinv Ha; [congruence|].
  simpl. unfold bind. rewrite (refresh_timer_refreshed a w Ha).
  assert (H1 : timer_inv (refreshed a w)).
  { pose proof (timer_inv_refresh w Hinv) as H.
    rewrite (refresh_timer_refreshed a w Ha) in H. exact H. }
  assert (H2 : active (refreshed a w) = Some a).
  { unfold refreshed. destruct (delay a =? 0); exact Ha. }
  destruct xs as [|y ys].
  - simpl. split; [reflexivity|]. split; [exact H1|]. split; [exact H2|].
    unfold refreshed. apply Z.eqb_neq in Hd. rewrite Hd.
    rewrite (timer_inv_without w Hinv).
    exists (next_handle w). split; reflexivity.
  - apply (IH (refreshed a w)); [discriminate | assumption..].
Qed.

(** X23: when neither motion state is configured, some motion sensor is
    configured and the active daytime has a delay other than 0, the end
    of [initialize] leaves exactly one auto-off timer pending, at that
    delay, whatever the number of motion sensors: a light that is on at
    start-up is switched off after the delay even if no motion is ever
    seen. *)
Theorem initialize_arms_the_timer (cfg : Config) (a : Daytime) :
  Py.truthy (states_motion_on cfg) = false ->
  Py.truthy (states_motion_off cfg) = false ->
  sensors_motion cfg <> [] ->
  delay a <> 0 ->
  fst (initialize_listeners cfg (blank (Some a))) = Ok tt
  /\ exists h,
      timers (boot cfg (Some a)) = [(h, delay a)]
      /\ _handle (boot cfg (Some a)) = Some h.
Proof.
  intros Hon Hoff Hne Hd. unfold boot, initialize_listeners.
  rewrite Hon, Hoff. cbn [orb negb].
  destruct (refresh_loop_arms a Hd (sensors_motion cfg) (blank (Some a)) Hne)
    as (Hok & _ & _ & Hone).
  - split; [left; reflexivity | apply Nat.le_0_l].
  - reflexivity.
  - split; assumption.
Qed.

Lemma initialize_arms_the_timer_witness :
  let cfg :=
    mkConfig "bath" ["binary_sensor.motion_sensor_a"; "binary_sensor.motion_sensor_b"]
             [] [] PNone PNone None None [] (inject_Z 3) (inject_Z 3)
             ["light.bath"] in
  fst (initialize_listeners cfg (blank (Some Bath.day))) = Ok tt
  /\ exists h,
      timers (boot cfg (Some Bath.day)) = [(h, delay Bath.day)]
      /\ _handle (boot cfg (Some Bath.day)) = Some h.
Proof.
  intros cfg. apply (initialize_arms_the_timer cfg Bath.day).
  - reflexivity.
  - reflexivity.
  - discriminate.
  - discriminate.
Defined.

(** ** Disable lines that are partly malformed *)

Lemma att_loop_app (env : Env) (entity : string) (bad : string)
      (rest : list string) :
  parse_pair bad = None ->
  forall good conds,
    parse_conditions good = Some conds ->
    att_loop env entity (good ++ bad :: rest)
    = if existsb (condition_matches env entity) conds then Ok true
      else Err ValueError.
Proof.
  intros Hbad. induction good as [|f good IH]; intros conds Hp; simpl in *.
  - injection Hp as <-. rewrite unpack_pair_parse, Hbad. reflexivity.
  - rewrite unpack_pair_parse.
    destruct (parse_pair f) as [c|]; [|discriminate].
    destruct (parse_conditions good) as [cs|]; [|discriminate].
    injection Hp as <-. simpl.
    rewrite att_satisfied_matches, (IH cs eq_refl).
    destruct (condition_matches env entity c); reflexivity.
Qed.

(** X24: a disable line whose first field is in order but which has an
    attribute field that does not split on one comma (a trailing
    semicolon, say) is harmless as long as the entity is not in the
    disabling state or an attribute condition before the bad field
    matches; only when the state matches and none of them does, the
    check raises [ValueError] instead of answering. *)
Theorem malformed_attribute_field_bites_late
        (env : Env) (line first bad : string) (good rest : list string)
        (p : string * string) (conds : list (string * string)) :
  Py.split ";" line = first :: good ++ bad :: rest ->
  parse_pair first = Some p ->
  parse_conditions good = Some conds ->
  parse_pair bad = None ->
  eval_disable_switch_conf env line
  = if Py.eq (get_state env (fst p) None) (PStr (snd p))
    then if existsb (condition_matches env (fst p)) conds then Ok true
         else Err ValueError
    else Ok false.
Proof.
  intros Hsplit Hfirst Hgood Hbad. unfold eval_disable_switch_conf.
  rewrite Hsplit. cbn [hd tl]. rewrite unpack_pair_parse, Hfirst.
  cbn [res_bind]. destruct (Py.eq _ _); [|reflexivity].
  transitivity (att_loop env (fst p) (good ++ bad :: rest)).
  - destruct good; reflexivity.
  - apply att_loop_app; assumption.
Qed.

Lemma malformed_attribute_field_bites_late_witness :
  eval_disable_switch_conf Bath.guarded "switch.guard, on;"
  = if Py.eq (get_state Bath.guarded (fst ("switch.guard", "on")) None)
             (PStr (snd ("switch.guard", "on")))
    then if existsb (condition_matches Bath.guarded (fst ("switch.guard", "on"))) []
         then Ok true
         else Err ValueError
    else Ok false.
Proof.
  apply (malformed_attribute_field_bites_late
           Bath.guarded "switch.guard, on;" "switch.guard, on" EmptyString [] []
           ("switch.guard", "on") []).
  - reflexivity.
  - reflexivity.
  - reflexivity.
  - reflexivity.
Defined.
